(** * Contract orders and the contract order stack (sysexecution/contract_orders.py)

    A shallow embedding of [contractTradeableObject], [contractOrder] and
    [contractOrderStackData], with the properties stated about them.

    Conventions.
    - Python [str] is [string]; [len] is [String.length]; a list of legs is
      [list string]; trade and fill vectors are [list Z].
    - A call that may raise returns a [result]: [Ok v] or [Raise e].
    - [None] is [None]; the sentinels [no_order_id], [no_parent] and
      [no_children] are the absent case of an [option].
    - Methods of the stack run in a state-and-exception monad over
      [StackState]; the state records, next to the stored orders, the
      sequence of calls made to the store.
    - The base classes [tradeableObject], [Order] and [orderStackData] live
      in other modules of the repository; the methods used from them are
      modelled from the specification and marked as such. Everything else
      follows contract_orders.py statement by statement. *)

From Stdlib Require Import Ascii String ZArith QArith Lia.
From stdpp Require Import gmap strings list fin_maps.

Local Open Scope Z_scope.
Local Open Scope string_scope.

(** ** Python values shared by the classes *)

Inductive pyexn : Type :=
  | ValueError      (* tuple unpacking of the wrong number of values *)
  | TypeError       (* an operation applied to None *)
  | RaisedException (* [raise Exception(...)] *).

Inductive result (A : Type) : Type :=
  | Ok (a : A)
  | Raise (e : pyexn).
Arguments Ok {A} a.
Arguments Raise {A} e.

Definition is_ok {A} (r : result A) : bool :=
  match r with Ok _ => true | Raise _ => false end.

(** ** str.split and str.join for a one-character separator *)

Module PyStr.

(** [s.split(c)]: the pieces of [s] between the occurrences of [c]; never
    the empty list ([''.split(c) == ['']]). *)
Fixpoint split (c : ascii) (s : string) : list string :=
  match s with
  | EmptyString => [EmptyString]
  | String a rest =>
      if Ascii.eqb a c then EmptyString :: split c rest
      else match split c rest with
           | piece :: pieces => String a piece :: pieces
           | [] => [String a EmptyString]
           end
  end.

(** [c.join(l)]. *)
Fixpoint join (c : ascii) (l : list string) : string :=
  match l with
  | [] => EmptyString
  | [x] => x
  | x :: rest => String.append x (String c (join c rest))
  end.

(** [s.count(c)]. *)
Fixpoint count (c : ascii) (s : string) : nat :=
  match s with
  | EmptyString => O
  | String a rest => (if Ascii.eqb a c then 1 else 0) + count c rest
  end.

(** [c not in s]. *)
Definition free_of (c : ascii) (s : string) : Prop := count c s = O.

End PyStr.

Definition slash : ascii := "/"%char.
Definition underscore : ascii := "_"%char.

(** ** contractTradeableObject *)

Record contractTradeableObject : Type := mkTradeable {
  strategy_name : string;
  instrument_code : string;
  contract_id : list string
}.

(** The [contract_id] argument of the constructor: one [str] or a list. *)
Inductive contract_id_arg : Type :=
  | CidStr (c : string)
  | CidList (l : list string).

(** [contractTradeableObject.__init__]. *)
Definition new_contractTradeableObject
    (strategy instrument : string) (cid : contract_id_arg)
    : contractTradeableObject :=
  let contract_id :=
    match cid with
    | CidStr c => [c]
    | CidList l => l
    end in
  mkTradeable strategy instrument contract_id.

(** [contractTradeableObject.from_key]: unpacking the split into three names
    raises ValueError unless there are exactly three pieces. *)
Definition from_key (key : string) : result contractTradeableObject :=
  match PyStr.split slash key with
  | [strategy_name; instrument_code; contract_id_str] =>
      let contract_id_list := PyStr.split underscore contract_id_str in
      Ok (new_contractTradeableObject strategy_name instrument_code
            (CidList contract_id_list))
  | _ => Raise ValueError
  end.

Definition contract_id_key (t : contractTradeableObject) : string :=
  PyStr.join underscore (contract_id t).

(** [alt_contract_id_key]: falls off the end, returning None, when the
    joined leg string has neither 6 nor 8 characters. *)
Definition alt_contract_id_key (t : contractTradeableObject) : option string :=
  if Nat.eqb (String.length (contract_id_key t)) 6 then
    Some (String.append (contract_id_key t) "00")
  else if Nat.eqb (String.length (contract_id_key t)) 8 then
    Some (String.substring 0 6 (contract_id_key t))
  else None.

Definition key (t : contractTradeableObject) : string :=
  PyStr.join slash [strategy_name t; instrument_code t; contract_id_key t].

(** [alt_key]: ["/".join] of a list holding None raises TypeError. *)
Definition alt_key (t : contractTradeableObject) : result string :=
  match alt_contract_id_key t with
  | Some alt =>
      Ok (PyStr.join slash [strategy_name t; instrument_code t; alt])
  | None => Raise TypeError
  end.

(** The names hold no "/", there is a leg, and no leg holds "/" or "_": the
    objects whose three parts can be read back from the key. *)
Definition separator_free (t : contractTradeableObject) : Prop :=
  PyStr.free_of slash (strategy_name t)
  /\ PyStr.free_of slash (instrument_code t)
  /\ contract_id t <> []
  /\ Forall (fun leg => PyStr.free_of slash leg /\ PyStr.free_of underscore leg)
            (contract_id t).

(** ** Sentinels of syscore.objects and base_orders *)

(** The named objects the stack methods return in place of a value. *)
Inductive named_object : Type :=
  | success
  | failure
  | missing_order
  | duplicate_order.

(** Modelled from the spec: the modification states of base_orders, of which
    only MODIFICATION_STATUS_NO_MODIFICATION is named in this module. *)
Inductive modification_status_t : Type :=
  | MODIFICATION_STATUS_NO_MODIFICATION
  | MODIFICATION_STATUS_REQUESTED
  | MODIFICATION_STATUS_ON_STACK
  | MODIFICATION_STATUS_COMPLETED
  | MODIFICATION_STATUS_FAILED.

Definition no_order_id : option Z := None.
Definition no_parent : option Z := None.
Definition no_children : option (list Z) := None.

(** [none_to_object(x, sentinel)] of syscore.genutils. *)
Definition none_to_object {A} (x : option A) (sentinel : option A) : option A :=
  match x with
  | None => sentinel
  | Some v => Some v
  end.

(** ** contractOrder *)

(** The [_order_info] dict. Prices are rationals, datetimes are timestamps. *)
Record order_info_t : Type := mkOrderInfo {
  algo_to_use : string;
  reference_price : option Q;
  limit_price : option Q;
  manual_trade : bool;
  manual_fill : bool;
  roll_order : bool;
  calendar_spread_order : bool;
  inter_spread_order : bool;
  generated_datetime : Z;
  reference_of_controlling_algo : option string
}.

Record contractOrder : Type := mkOrder {
  _tradeable_object : contractTradeableObject;
  _trade : list Z;
  _fill : list Z;
  _fill_datetime : option Z;
  _filled_price : option Q;
  _locked : bool;
  _order_id : option Z;
  _modification_status : modification_status_t;
  _modification_quantity : option (list Z);
  _parent : option Z;
  _children : option (list Z);
  _active : bool;
  _order_info : order_info_t
}.

(** The [trade] argument: an int, a float, or a list of int. *)
Inductive trade_arg : Type :=
  | TradeInt (n : Z)
  | TradeFloat (x : Q)
  | TradeList (l : list Z).

(** The positional arguments [*args]. *)
Inductive order_args : Type :=
  | ArgsKey (key : string) (trade : trade_arg)
  | ArgsNames (strategy instrument : string) (contract_id : contract_id_arg)
              (trade : trade_arg)
  | ArgsOther.

(** The keyword arguments of [contractOrder.__init__]. *)
Record order_kwargs : Type := mkKwargs {
  kw_fill : option (list Z);
  kw_locked : bool;
  kw_order_id : option Z;
  kw_modification_status : modification_status_t;
  kw_modification_quantity : option (list Z);
  kw_parent : option Z;
  kw_children : option (list Z);
  kw_active : bool;
  kw_algo_to_use : string;
  kw_reference_price : option Q;
  kw_limit_price : option Q;
  kw_filled_price : option Q;
  kw_fill_datetime : option Z;
  kw_generated_datetime : option Z;
  kw_manual_fill : bool;
  kw_manual_trade : bool;
  kw_roll_order : bool;
  kw_inter_spread_order : bool;
  kw_calendar_spread_order : option bool;
  kw_reference_of_controlling_algo : option string
}.

(** The defaults in the signature of [__init__]. *)
Definition default_kwargs : order_kwargs := {|
  kw_fill := None;
  kw_locked := false;
  kw_order_id := no_order_id;
  kw_modification_status := MODIFICATION_STATUS_NO_MODIFICATION;
  kw_modification_quantity := None;
  kw_parent := no_parent;
  kw_children := no_children;
  kw_active := true;
  kw_algo_to_use := "";
  kw_reference_price := None;
  kw_limit_price := None;
  kw_filled_price := None;
  kw_fill_datetime := None;
  kw_generated_datetime := None;
  kw_manual_fill := false;
  kw_manual_trade := false;
  kw_roll_order := false;
  kw_inter_spread_order := false;
  kw_calendar_spread_order := None;
  kw_reference_of_controlling_algo := None
|}.

(** The flat mapping read by [from_dict]: the twelve popped entries, and the
    entries left over, which are passed on as keyword arguments. *)
Record order_dict : Type := mkOrderDict {
  d_trade : trade_arg;
  d_key : string;
  d_fill : option (list Z);
  d_filled_price : option Q;
  d_fill_datetime : option Z;
  d_locked : bool;
  d_order_id : option Z;
  d_modification_status : modification_status_t;
  d_modification_quantity : option (list Z);
  d_parent : option Z;
  d_children : option (list Z);
  d_active : bool;
  d_algo_to_use : string;
  d_reference_price : option Q;
  d_limit_price : option Q;
  d_generated_datetime : option Z;
  d_manual_fill : bool;
  d_manual_trade : bool;
  d_roll_order : bool;
  d_inter_spread_order : bool;
  d_calendar_spread_order : option bool;
  d_reference_of_controlling_algo : option string
}.

Module ContractOrder.

(** [int(x)] on a float: truncation towards zero. *)
Definition int_of_float (x : Q) : Z := Z.quot (Qnum x) (Zpos (Qden x)).

Definition _resolve_args (args : order_args)
    : result (contractTradeableObject * trade_arg) :=
  match args with
  | ArgsKey k trade =>
      match from_key k with
      | Ok tradeable_object => Ok (tradeable_object, trade)
      | Raise e => Raise e
      end
  | ArgsNames strategy instrument contract_id trade =>
      Ok (new_contractTradeableObject strategy instrument contract_id, trade)
  | ArgsOther => Raise RaisedException
  end.

(** [contractOrder.__init__]; [now] is the reading of
    [datetime.datetime.now()]. The [calendar_spread_order] keyword is
    overwritten on both branches of the test on [len(trade)]. *)
Definition __init__ (now : Z) (args : order_args) (kw : order_kwargs)
    : result contractOrder :=
  match _resolve_args args with
  | Raise e => Raise e
  | Ok (tradeable_object, trade) =>
      let trade :=
        match trade with
        | TradeInt n => [n]
        | TradeFloat x => [int_of_float x]
        | TradeList l => l
        end in
      let fill :=
        match kw_fill kw with
        | None => repeat 0 (length trade)
        | Some fill => fill
        end in
      let calendar_spread_order :=
        if Nat.eqb (length trade) 1 then false else true in
      let generated_datetime :=
        match kw_generated_datetime kw with
        | None => now
        | Some d => d
        end in
      Ok {| _tradeable_object := tradeable_object;
            _trade := trade;
            _fill := fill;
            _fill_datetime := kw_fill_datetime kw;
            _filled_price := kw_filled_price kw;
            _locked := kw_locked kw;
            _order_id := kw_order_id kw;
            _modification_status := kw_modification_status kw;
            _modification_quantity := kw_modification_quantity kw;
            _parent := kw_parent kw;
            _children := kw_children kw;
            _active := kw_active kw;
            _order_info :=
              {| algo_to_use := kw_algo_to_use kw;
                 reference_price := kw_reference_price kw;
                 limit_price := kw_limit_price kw;
                 manual_trade := kw_manual_trade kw;
                 manual_fill := kw_manual_fill kw;
                 roll_order := kw_roll_order kw;
                 calendar_spread_order := calendar_spread_order;
                 inter_spread_order := kw_inter_spread_order kw;
                 generated_datetime := generated_datetime;
                 reference_of_controlling_algo :=
                   kw_reference_of_controlling_algo kw |} |}
  end.

(** [contractOrder.from_dict]. *)
Definition from_dict (now : Z) (order_as_dict : order_dict)
    : result contractOrder :=
  let trade := d_trade order_as_dict in
  let key := d_key order_as_dict in
  let fill := d_fill order_as_dict in
  let filled_price := d_filled_price order_as_dict in
  let fill_datetime := d_fill_datetime order_as_dict in
  let locked := d_locked order_as_dict in
  let order_id := none_to_object (d_order_id order_as_dict) no_order_id in
  let modification_status := d_modification_status order_as_dict in
  let modification_quantity := d_modification_quantity order_as_dict in
  let parent := none_to_object (d_parent order_as_dict) no_parent in
  let children := none_to_object (d_children order_as_dict) no_children in
  let active := d_active order_as_dict in
  __init__ now (ArgsKey key trade)
    {| kw_fill := fill;
       kw_locked := locked;
       kw_order_id := order_id;
       kw_modification_status := modification_status;
       kw_modification_quantity := modification_quantity;
       kw_parent := parent;
       kw_children := children;
       kw_active := active;
       kw_algo_to_use := d_algo_to_use order_as_dict;
       kw_reference_price := d_reference_price order_as_dict;
       kw_limit_price := d_limit_price order_as_dict;
       kw_filled_price := filled_price;
       kw_fill_datetime := fill_datetime;
       kw_generated_datetime := d_generated_datetime order_as_dict;
       kw_manual_fill := d_manual_fill order_as_dict;
       kw_manual_trade := d_manual_trade order_as_dict;
       kw_roll_order := d_roll_order order_as_dict;
       kw_inter_spread_order := d_inter_spread_order order_as_dict;
       kw_calendar_spread_order := d_calendar_spread_order order_as_dict;
       kw_reference_of_controlling_algo :=
         d_reference_of_controlling_algo order_as_dict |}.

(** *** Properties *)

Definition trade (self : contractOrder) : list Z := _trade self.
Definition fill (self : contractOrder) : list Z := _fill self.
Definition modification_quantity (self : contractOrder) : option (list Z) :=
  _modification_quantity self.
Definition order_strategy_name (self : contractOrder) : string :=
  strategy_name (_tradeable_object self).
Definition order_instrument_code (self : contractOrder) : string :=
  instrument_code (_tradeable_object self).
Definition order_key (self : contractOrder) : string :=
  key (_tradeable_object self).
Definition get_calendar_spread_order (self : contractOrder) : bool :=
  calendar_spread_order (_order_info self).
Definition get_reference_of_controlling_algo (self : contractOrder)
    : option string :=
  reference_of_controlling_algo (_order_info self).

(** *** Updates of one attribute *)

Definition with_order_info (info : order_info_t) (self : contractOrder)
    : contractOrder :=
  mkOrder (_tradeable_object self) (_trade self) (_fill self)
    (_fill_datetime self) (_filled_price self) (_locked self)
    (_order_id self) (_modification_status self)
    (_modification_quantity self) (_parent self) (_children self)
    (_active self) info.

Definition with_locked (b : bool) (self : contractOrder) : contractOrder :=
  mkOrder (_tradeable_object self) (_trade self) (_fill self)
    (_fill_datetime self) (_filled_price self) b
    (_order_id self) (_modification_status self)
    (_modification_quantity self) (_parent self) (_children self)
    (_active self) (_order_info self).

Definition with_active (b : bool) (self : contractOrder) : contractOrder :=
  mkOrder (_tradeable_object self) (_trade self) (_fill self)
    (_fill_datetime self) (_filled_price self) (_locked self)
    (_order_id self) (_modification_status self)
    (_modification_quantity self) (_parent self) (_children self)
    b (_order_info self).

Definition with_order_id (i : option Z) (self : contractOrder)
    : contractOrder :=
  mkOrder (_tradeable_object self) (_trade self) (_fill self)
    (_fill_datetime self) (_filled_price self) (_locked self)
    i (_modification_status self)
    (_modification_quantity self) (_parent self) (_children self)
    (_active self) (_order_info self).

Definition with_reference_of_controlling_algo (r : option string)
    (info : order_info_t) : order_info_t :=
  mkOrderInfo (algo_to_use info) (reference_price info) (limit_price info)
    (manual_trade info) (manual_fill info) (roll_order info)
    (calendar_spread_order info) (inter_spread_order info)
    (generated_datetime info) r.

(** *** Methods that mutate the order: the order after the call is the
    second component, also when the call raises. *)

Definition OrderM (A : Type) : Type := contractOrder -> result A * contractOrder.

(** The property setters. *)
Definition set_algo_to_use (v : string) : OrderM unit :=
  fun self =>
    let info := _order_info self in
    (Ok tt, with_order_info
       (mkOrderInfo v (reference_price info) (limit_price info)
          (manual_trade info) (manual_fill info) (roll_order info)
          (calendar_spread_order info) (inter_spread_order info)
          (generated_datetime info) (reference_of_controlling_algo info))
       self).

Definition set_reference_price (v : option Q) : OrderM unit :=
  fun self =>
    let info := _order_info self in
    (Ok tt, with_order_info
       (mkOrderInfo (algo_to_use info) v (limit_price info)
          (manual_trade info) (manual_fill info) (roll_order info)
          (calendar_spread_order info) (inter_spread_order info)
          (generated_datetime info) (reference_of_controlling_algo info))
       self).

Definition set_limit_price (v : option Q) : OrderM unit :=
  fun self =>
    let info := _order_info self in
    (Ok tt, with_order_info
       (mkOrderInfo (algo_to_use info) (reference_price info) v
          (manual_trade info) (manual_fill info) (roll_order info)
          (calendar_spread_order info) (inter_spread_order info)
          (generated_datetime info) (reference_of_controlling_algo info))
       self).

Definition set_manual_fill (v : bool) : OrderM unit :=
  fun self =>
    let info := _order_info self in
    (Ok tt, with_order_info
       (mkOrderInfo (algo_to_use info) (reference_price info)
          (limit_price info) (manual_trade info) v (roll_order info)
          (calendar_spread_order info) (inter_spread_order info)
          (generated_datetime info) (reference_of_controlling_algo info))
       self).

Definition is_order_controlled_by_algo (self : contractOrder) : bool :=
  match reference_of_controlling_algo (_order_info self) with
  | Some _ => true
  | None => false
  end.

Definition add_controlling_algo_ref (control_algo_ref : option string)
    : OrderM named_object :=
  fun self =>
    if is_order_controlled_by_algo self then (Raise RaisedException, self)
    else
      (Ok success,
       with_order_info
         (with_reference_of_controlling_algo control_algo_ref
            (_order_info self))
         self).

Definition release_order_from_algo_control : OrderM unit :=
  fun self =>
    (Ok tt,
     with_order_info
       (with_reference_of_controlling_algo None (_order_info self)) self).

(** Modelled from the spec: [lock_order], [unlock_order] and [deactivate]
    of the base class Order, which set or clear the [locked] and [active]
    flags. *)
Definition lock_order : OrderM unit :=
  fun self => (Ok tt, with_locked true self).

Definition unlock_order : OrderM unit :=
  fun self => (Ok tt, with_locked false self).

Definition deactivate : OrderM unit :=
  fun self => (Ok tt, with_active false self).

(** *** Comparisons of the vectors; [zip] stops at the shorter one. *)

Definition all_zip (p : Z -> Z -> bool) (xs ys : list Z) : bool :=
  forallb (fun xy => p (fst xy) (snd xy)) (combine xs ys).

Definition any_zip (p : Z -> Z -> bool) (xs ys : list Z) : bool :=
  existsb (fun xy => p (fst xy) (snd xy)) (combine xs ys).

Definition fill_less_than_or_equal_to_desired_trade
    (self : contractOrder) (proposed_fill : list Z) : bool :=
  all_zip Z.leb proposed_fill (trade self).

Definition fill_equals_zero (self : contractOrder) : bool :=
  forallb (fun x => Z.eqb x 0) (fill self).

Definition new_qty_less_than_fill (self : contractOrder) (new_qty : list Z)
    : bool :=
  any_zip Z.ltb new_qty (fill self).

Definition fill_equals_desired_trade (self : contractOrder) : bool :=
  all_zip Z.eqb (trade self) (fill self).

Definition is_zero_trade (self : contractOrder) : bool :=
  forallb (fun x => Z.eqb x 0) (trade self).

Definition same_trade_size (self other : contractOrder) : bool :=
  let my_trade := trade self in
  let other_trade := trade other in
  all_zip Z.eqb my_trade other_trade.

Definition fill_equals_modification_quantity (self : contractOrder) : bool :=
  match modification_quantity self with
  | None => false
  | Some q => all_zip Z.eqb q (fill self)
  end.

(** *** Fills and quantity modifications *)

Definition with_fill (fill : list Z) (filled_price : option Q)
    (fill_datetime : option Z) (self : contractOrder) : contractOrder :=
  mkOrder (_tradeable_object self) (_trade self) fill
    fill_datetime filled_price (_locked self)
    (_order_id self) (_modification_status self)
    (_modification_quantity self) (_parent self) (_children self)
    (_active self) (_order_info self).

Definition with_modification (status : modification_status_t)
    (quantity : option (list Z)) (self : contractOrder) : contractOrder :=
  mkOrder (_tradeable_object self) (_trade self) (_fill self)
    (_fill_datetime self) (_filled_price self) (_locked self)
    (_order_id self) status quantity (_parent self) (_children self)
    (_active self) (_order_info self).

Definition with_trade (trade : list Z) (self : contractOrder)
    : contractOrder :=
  mkOrder (_tradeable_object self) trade (_fill self)
    (_fill_datetime self) (_filled_price self) (_locked self)
    (_order_id self) (_modification_status self)
    (_modification_quantity self) (_parent self) (_children self)
    (_active self) (_order_info self).

(** Modelled from the spec: the recording of a fill, an operation of the
    base class Order. [fill_qty] is the quantity newly filled on each leg.
    A vector of another length than the trade is rejected before any
    mutation; so is a fill that takes the cumulative fill past the trade on
    some leg, by [fill_less_than_or_equal_to_desired_trade], with no
    clamping. An accepted fill sets the fill, the filled price and the fill
    datetime together. *)
Definition record_fill (fill_qty : list Z) (filled_price : option Q)
    (fill_datetime : option Z) : OrderM named_object :=
  fun self =>
    if negb (Nat.eqb (length fill_qty) (length (trade self)))
    then (Ok failure, self)
    else
      let proposed_fill := zip_with Z.add (fill self) fill_qty in
      if fill_less_than_or_equal_to_desired_trade self proposed_fill
      then (Ok success, with_fill proposed_fill filled_price fill_datetime self)
      else (Ok failure, self).

(** Modelled from the spec: the request of a quantity modification, an
    operation of the base class Order. It is rejected while the order is
    locked, for a vector of another length than the trade, and when the new
    quantity is less than the recorded fill on some leg
    ([new_qty_less_than_fill]); otherwise the proposed trade vector is held
    in [modification_quantity] and the status is requested. *)
Definition request_modification (new_qty : list Z) : OrderM named_object :=
  fun self =>
    if _locked self then (Ok failure, self)
    else if negb (Nat.eqb (length new_qty) (length (trade self)))
    then (Ok failure, self)
    else if new_qty_less_than_fill self new_qty then (Ok failure, self)
    else
      (Ok success,
       with_modification MODIFICATION_STATUS_REQUESTED (Some new_qty) self).

(** Modelled from the spec: a requested modification passed down to the
    stack: the status becomes on-stack, the pending quantity is kept. *)
Definition modification_placed_on_stack : OrderM named_object :=
  fun self =>
    match _modification_status self with
    | MODIFICATION_STATUS_REQUESTED =>
        (Ok success,
         with_modification MODIFICATION_STATUS_ON_STACK
           (_modification_quantity self) self)
    | _ => (Ok failure, self)
    end.

(** Modelled from the spec: the completion of a pending modification, which
    makes the pending quantity the trade. The change of trade is rejected
    while the order is locked, for a pending vector of another length than
    the trade, and when it is less than the recorded fill on some leg; on
    acceptance the status is completed and nothing is pending. *)
Definition complete_modification : OrderM named_object :=
  fun self =>
    match modification_quantity self with
    | None => (Ok failure, self)
    | Some new_qty =>
        if _locked self then (Ok failure, self)
        else if negb (Nat.eqb (length new_qty) (length (trade self)))
        then (Ok failure, self)
        else if new_qty_less_than_fill self new_qty then (Ok failure, self)
        else
          (Ok success,
           with_modification MODIFICATION_STATUS_COMPLETED None
             (with_trade new_qty self))
    end.

(** Modelled from the spec: a pending modification that failed: the status
    is failed, nothing is pending, and the trade is as it was. *)
Definition fail_modification : OrderM named_object :=
  fun self =>
    match modification_quantity self with
    | None => (Ok failure, self)
    | Some _ =>
        (Ok success, with_modification MODIFICATION_STATUS_FAILED None self)
    end.

(** The mutating methods, as data: the ones of contractOrder, and the ones
    of the base class that lock, deactivate, record fills and modify the
    quantity. *)
Inductive mutation : Type :=
  | MSetAlgoToUse (v : string)
  | MSetReferencePrice (v : option Q)
  | MSetLimitPrice (v : option Q)
  | MSetManualFill (v : bool)
  | MAddControllingAlgoRef (r : option string)
  | MReleaseFromAlgoControl
  | MLockOrder
  | MUnlockOrder
  | MDeactivate
  | MRecordFill (fill_qty : list Z) (filled_price : option Q)
                (fill_datetime : option Z)
  | MRequestModification (new_qty : list Z)
  | MModificationPlacedOnStack
  | MCompleteModification
  | MFailModification.

Definition mutate (m : mutation) (self : contractOrder) : contractOrder :=
  match m with
  | MSetAlgoToUse v => snd (set_algo_to_use v self)
  | MSetReferencePrice v => snd (set_reference_price v self)
  | MSetLimitPrice v => snd (set_limit_price v self)
  | MSetManualFill v => snd (set_manual_fill v self)
  | MAddControllingAlgoRef r => snd (add_controlling_algo_ref r self)
  | MReleaseFromAlgoControl => snd (release_order_from_algo_control self)
  | MLockOrder => snd (lock_order self)
  | MUnlockOrder => snd (unlock_order self)
  | MDeactivate => snd (deactivate self)
  | MRecordFill fill_qty filled_price fill_datetime =>
      snd (record_fill fill_qty filled_price fill_datetime self)
  | MRequestModification new_qty => snd (request_modification new_qty self)
  | MModificationPlacedOnStack => snd (modification_placed_on_stack self)
  | MCompleteModification => snd (complete_modification self)
  | MFailModification => snd (fail_modification self)
  end.

Definition mutate_all (ms : list mutation) (self : contractOrder)
    : contractOrder :=
  fold_left (fun o m => mutate m o) ms self.

(** The two ways to an order: the constructor and [from_dict]. *)
Inductive construction : Type :=
  | ByInit (now : Z) (args : order_args) (kw : order_kwargs)
  | ByFromDict (now : Z) (order_as_dict : order_dict).

Definition construct (c : construction) : result contractOrder :=
  match c with
  | ByInit now args kw => __init__ now args kw
  | ByFromDict now d => from_dict now d
  end.

(** The [fill] the caller supplied, if any. *)
Definition supplied_fill (c : construction) : option (list Z) :=
  match c with
  | ByInit _ _ kw => kw_fill kw
  | ByFromDict _ d => d_fill d
  end.

(** A stored order as a dict, with a fill chosen by the caller. *)
Definition dict_with_fill (k : string) (trade : trade_arg)
    (fill : option (list Z)) : order_dict :=
  {| d_trade := trade;
     d_key := k;
     d_fill := fill;
     d_filled_price := None;
     d_fill_datetime := None;
     d_locked := false;
     d_order_id := None;
     d_modification_status := MODIFICATION_STATUS_NO_MODIFICATION;
     d_modification_quantity := None;
     d_parent := None;
     d_children := None;
     d_active := true;
     d_algo_to_use := "";
     d_reference_price := None;
     d_limit_price := None;
     d_generated_datetime := None;
     d_manual_fill := false;
     d_manual_trade := false;
     d_roll_order := false;
     d_inter_spread_order := false;
     d_calendar_spread_order := None;
     d_reference_of_controlling_algo := None |}.

(** The default keywords with [calendar_spread_order] chosen by the
    caller. *)
Definition kwargs_with_calendar_spread (b : option bool) : order_kwargs :=
  mkKwargs None false no_order_id MODIFICATION_STATUS_NO_MODIFICATION None
    no_parent no_children true "" None None None None None false false
    false false b None.

(** The [_order_info] dict as the constructor builds it: ten entries, under
    the names of the keywords. *)
Inductive info_value : Type :=
  | VStr (v : string)
  | VPrice (v : option Q)
  | VBool (v : bool)
  | VDatetime (v : Z)
  | VRef (v : option string).

Definition order_info_dict (info : order_info_t) : gmap string info_value :=
  list_to_map
    [("algo_to_use", VStr (algo_to_use info));
     ("reference_price", VPrice (reference_price info));
     ("limit_price", VPrice (limit_price info));
     ("manual_trade", VBool (manual_trade info));
     ("manual_fill", VBool (manual_fill info));
     ("roll_order", VBool (roll_order info));
     ("calendar_spread_order", VBool (calendar_spread_order info));
     ("inter_spread_order", VBool (inter_spread_order info));
     ("generated_datetime", VDatetime (generated_datetime info));
     ("reference_of_controlling_algo",
      VRef (reference_of_controlling_algo info))].

(** [self._order_info[k]]: the entry, or KeyError. *)
Inductive item : Type :=
  | Item (v : info_value)
  | KeyError.

Definition order_info_getitem (self : contractOrder) (k : string) : item :=
  match order_info_dict (_order_info self) !! k with
  | Some v => Item v
  | None => KeyError
  end.

(** The properties that read [_order_info], each under the key it names. *)
Definition get_algo_to_use (self : contractOrder) : item :=
  order_info_getitem self "algo_to_use".
Definition get_generated_datetime (self : contractOrder) : item :=
  order_info_getitem self "reference_datetime".
Definition get_reference_price (self : contractOrder) : item :=
  order_info_getitem self "reference_price".
Definition get_limit_price (self : contractOrder) : item :=
  order_info_getitem self "limit_price".
Definition get_manual_trade (self : contractOrder) : item :=
  order_info_getitem self "manual_trade".
Definition get_manual_fill (self : contractOrder) : item :=
  order_info_getitem self "manual_fill".
Definition get_roll_order (self : contractOrder) : item :=
  order_info_getitem self "roll_order".
Definition get_inter_spread_order (self : contractOrder) : item :=
  order_info_getitem self "inter_spread_order".

End ContractOrder.

(** ** contractOrderStackData *)

(** One call from this module into the base class orderStackData. *)
Inductive store_call : Type :=
  | CallPut (order : contractOrder) (returned : Z + named_object)
  | CallGet (order_id : Z)
  | CallChange (order_id : Z) (new_order : contractOrder)
  | CallUnlock (order_id : Z)
  | CallDeactivate (order_id : Z)
  | CallRemove (order_id : Z).

(** The stack object: the stored orders by id, the next id to allocate, the
    backing store's own reasons to refuse an insert, and the calls made to
    the base class so far (oldest first). *)
Record StackState : Type := mkStack {
  _stack : gmap Z contractOrder;
  next_order_id : Z;
  insert_refused : gmap Z contractOrder -> contractOrder -> bool;
  calls : list store_call
}.

Module ContractOrderStack.

Definition StackM (A : Type) : Type := StackState -> result A * StackState.

Definition ret {A} (a : A) : StackM A := fun st => (Ok a, st).

Definition raise {A} (e : pyexn) : StackM A := fun st => (Raise e, st).

Definition bind {A B} (m : StackM A) (k : A -> StackM B) : StackM B :=
  fun st =>
    match m st with
    | (Ok a, st') => k a st'
    | (Raise e, st') => (Raise e, st')
    end.

Notation "'let*' x := m 'in' k" := (bind m (fun x => k))
  (at level 10, x name, m at level 100, k at level 200).
Notation "'run' m 'in' k" := (bind m (fun _ => k))
  (at level 10, m at level 100, k at level 200).

Definition with_stack (m : gmap Z contractOrder) (st : StackState)
    : StackState :=
  mkStack m (next_order_id st) (insert_refused st) (calls st).

Definition log_call (c : store_call) (st : StackState) : StackState :=
  mkStack (_stack st) (next_order_id st) (insert_refused st)
    (calls st ++ [c]).

(** *** The base class orderStackData *)

(** Modelled from the spec: [get_order_with_id_from_stack] of the base
    class, the store's get(id), with [None] for [missing_order]. *)
Definition get_order_with_id_from_stack (order_id : Z)
    : StackM (option contractOrder) :=
  fun st => (Ok (_stack st !! order_id), log_call (CallGet order_id) st).

(** An active order with the same key and a matching trade vector. *)
Definition is_duplicate_of (new_order existing : contractOrder) : bool :=
  _active existing
  && String.eqb (ContractOrder.order_key existing)
                (ContractOrder.order_key new_order)
  && ContractOrder.same_trade_size existing new_order.

Definition duplicate_on_stack (m : gmap Z contractOrder)
    (new_order : contractOrder) : bool :=
  existsb (fun entry => is_duplicate_of new_order (snd entry))
          (map_to_list m).

(** Modelled from the spec: [put_order_on_stack] of the base class. A
    duplicate of an active order is refused with [duplicate_order], an
    insert the backing store refuses gives [failure]; otherwise the order
    is stored under the next id, which is returned and never allocated
    again. *)
Definition put_order_on_stack (new_order : contractOrder)
    : StackM (Z + named_object) :=
  fun st =>
    if duplicate_on_stack (_stack st) new_order then
      (Ok (inr duplicate_order),
       log_call (CallPut new_order (inr duplicate_order)) st)
    else if insert_refused st (_stack st) new_order then
      (Ok (inr failure), log_call (CallPut new_order (inr failure)) st)
    else
      let order_id := next_order_id st in
      let order_to_add := ContractOrder.with_order_id (Some order_id) new_order in
      (Ok (inl order_id),
       mkStack (<[order_id := order_to_add]> (_stack st)) (order_id + 1)
         (insert_refused st)
         (calls st ++ [CallPut new_order (inl order_id)])).

Definition modification_in_flight (o : contractOrder) : bool :=
  match _modification_status o with
  | MODIFICATION_STATUS_REQUESTED | MODIFICATION_STATUS_ON_STACK => true
  | _ => false
  end.

(** Modelled from the spec: [_change_order_on_stack] of the base class,
    which replaces the order stored at [order_id]; with the check on, it
    fails while the stored order has a modification in flight. *)
Definition _change_order_on_stack (order_id : Z) (new_order : contractOrder)
    (check_if_orders_being_modified : bool) : StackM named_object :=
  fun st =>
    let st := log_call (CallChange order_id new_order) st in
    match _stack st !! order_id with
    | None => (Ok missing_order, st)
    | Some existing_order =>
        if check_if_orders_being_modified
           && modification_in_flight existing_order
        then (Ok failure, st)
        else (Ok success, with_stack (<[order_id := new_order]> (_stack st)) st)
    end.

(** Modelled from the spec: [_unlock_order_on_stack] of the base class
    clears the lock of the stored order. *)
Definition _unlock_order_on_stack (order_id : Z) : StackM named_object :=
  fun st =>
    let st := log_call (CallUnlock order_id) st in
    match _stack st !! order_id with
    | None => (Ok failure, st)
    | Some order =>
        (Ok success,
         with_stack
           (<[order_id := snd (ContractOrder.unlock_order order)]> (_stack st))
           st)
    end.

(** Modelled from the spec: [deactivate_order] of the base class marks the
    stored order inactive. *)
Definition deactivate_order (order_id : Z) : StackM named_object :=
  fun st =>
    let st := log_call (CallDeactivate order_id) st in
    match _stack st !! order_id with
    | None => (Ok failure, st)
    | Some order =>
        (Ok success,
         with_stack
           (<[order_id := snd (ContractOrder.deactivate order)]> (_stack st))
           st)
    end.

(** Modelled from the spec: [remove_order_with_id_from_stack] of the base
    class removes the order from the stack. *)
Definition remove_order_with_id_from_stack (order_id : Z)
    : StackM named_object :=
  fun st =>
    let st := log_call (CallRemove order_id) st in
    match _stack st !! order_id with
    | None => (Ok failure, st)
    | Some _ => (Ok success, with_stack (delete order_id (_stack st)) st)
    end.

(** [copy(order)]: the stored orders are values here, so the copy is the
    order itself. *)
Definition copy (order : contractOrder) : contractOrder := order.

(** *** The methods of contractOrderStackData *)

(** The body of [for order_id in list_of_child_ids] in
    [rollback_list_of_orders_on_stack]. *)
Fixpoint rollback_loop (list_of_child_ids : list Z) : StackM unit :=
  match list_of_child_ids with
  | [] => ret tt
  | order_id :: rest =>
      run _unlock_order_on_stack order_id in
      run deactivate_order order_id in
      run remove_order_with_id_from_stack order_id in
      rollback_loop rest
  end.

Definition rollback_list_of_orders_on_stack (list_of_child_ids : list Z)
    : StackM named_object :=
  run rollback_loop list_of_child_ids in ret success.

Fixpoint unlock_loop (list_of_child_ids : list Z) : StackM unit :=
  match list_of_child_ids with
  | [] => ret tt
  | order_id :: rest =>
      run _unlock_order_on_stack order_id in unlock_loop rest
  end.

Definition unlock_list_of_orders (list_of_child_ids : list Z)
    : StackM named_object :=
  run unlock_loop list_of_child_ids in ret success.

(** The loop of [put_list_of_orders_on_stack]: each order is locked and
    put on the stack; the first result that is not an int sets [status]
    to [failure] and breaks out. Returns [list_of_child_ids] and
    [status]. [lock_order] acts on the caller's order object, which the
    stack does not hold: the stack stores what [put_order_on_stack] is
    given, here the locked order. The logger is not part of the state. *)
Fixpoint put_loop (list_of_contract_orders : list contractOrder)
    (list_of_child_ids : list Z) : StackM (list Z * named_object) :=
  match list_of_contract_orders with
  | [] => ret (list_of_child_ids, success)
  | contract_order :: rest =>
      let contract_order := snd (ContractOrder.lock_order contract_order) in
      let* child_id := put_order_on_stack contract_order in
      match child_id with
      | inr _ => ret (list_of_child_ids, failure)
      | inl child_id => put_loop rest (list_of_child_ids ++ [child_id])
      end
  end.

Definition put_list_of_orders_on_stack
    (list_of_contract_orders : list contractOrder)
    (unlock_when_finished : bool) : StackM (list Z + named_object) :=
  if Nat.eqb (length list_of_contract_orders) 0 then ret (inl [])
  else
    let* looped := put_loop list_of_contract_orders [] in
    let list_of_child_ids := fst looped in
    let status := snd looped in
    match status with
    | failure =>
        run rollback_list_of_orders_on_stack list_of_child_ids in
        ret (inr failure)
    | _ =>
        run (if unlock_when_finished
              then unlock_list_of_orders list_of_child_ids
              else ret success) in
        ret (inl list_of_child_ids)
    end.

Definition release_order_from_algo_control (order_id : Z)
    : StackM named_object :=
  let* existing_order := get_order_with_id_from_stack order_id in
  match existing_order with
  | None => raise RaisedException
  | Some existing_order =>
      if negb (ContractOrder.is_order_controlled_by_algo existing_order)
      then ret success
      else
        let modified_order := copy existing_order in
        match ContractOrder.release_order_from_algo_control modified_order with
        | (Raise _, _) => raise RaisedException
        | (Ok _, modified_order) =>
            let* result := _change_order_on_stack order_id modified_order false in
            match result with
            | success => ret success
            | _ => raise RaisedException
            end
        end
  end.

Definition add_controlling_algo_ref (order_id : Z)
    (control_algo_ref : option string) : StackM named_object :=
  match control_algo_ref with
  | None => release_order_from_algo_control order_id
  | Some _ =>
      let* existing_order := get_order_with_id_from_stack order_id in
      match existing_order with
      | None => raise RaisedException
      | Some existing_order =>
          let modified_order := copy existing_order in
          match ContractOrder.add_controlling_algo_ref control_algo_ref
                  modified_order with
          | (Raise _, _) => raise RaisedException
          | (Ok _, modified_order) =>
              let* result := _change_order_on_stack order_id modified_order false in
              match result with
              | success => ret success
              | _ => raise RaisedException
              end
          end
      end
  end.

(** The calls a rollback of [ids] makes. *)
Definition rollback_calls (ids : list Z) : list store_call :=
  flat_map (fun i => [CallUnlock i; CallDeactivate i; CallRemove i]) ids.

(** The calls that put [orders], locked, under [ids]. *)
Fixpoint put_calls (orders : list contractOrder) (ids : list Z)
    : list store_call :=
  match orders, ids with
  | o :: orders, i :: ids =>
      CallPut (snd (ContractOrder.lock_order o)) (inl i) :: put_calls orders ids
  | _, _ => []
  end.

(** Ids are allocated from a counter above every id in use. *)
Definition stack_wf (st : StackState) : Prop :=
  forall i o, _stack st !! i = Some o -> i < next_order_id st.

(** From [st] to [st'] only the ids [new] were touched, each allocated at
    or after the counter of [st]. *)
Definition inserted_only (st st' : StackState) (new : list Z) : Prop :=
  next_order_id st <= next_order_id st'
  /\ Forall (fun i => next_order_id st <= i) new
  /\ forall j, j ∉ new -> _stack st' !! j = _stack st !! j.

(** The calls made between [st] and a later state [st']. *)
Definition calls_since (st st' : StackState) : list store_call :=
  drop (length (calls st)) (calls st').

(** [manual_fill_for_order_id]. Two things it relies on live in the base
    class and are taken as arguments: [change_fill_quantity_for_order], the
    fill primitive, and what becomes of the write-back when the order read
    afterwards is [missing_order] ([write_back_missing]). Only the result
    [failure] of the primitive stops the method. *)
Definition manual_fill_for_order_id
    (change_fill_quantity_for_order :
       Z -> list Z -> option Q -> option Z -> StackM named_object)
    (write_back_missing : Z -> StackM named_object)
    (order_id : Z) (fill_qty : list Z) (filled_price : option Q)
    (fill_datetime : option Z) : StackM named_object :=
  let* result :=
    change_fill_quantity_for_order order_id fill_qty filled_price
      fill_datetime in
  match result with
  | failure => ret failure
  | _ =>
      let* order := get_order_with_id_from_stack order_id in
      match order with
      | None => write_back_missing order_id
      | Some order =>
          let order := snd (ContractOrder.set_manual_fill true order) in
          let* result := _change_order_on_stack order_id order false in
          ret result
      end
  end.

(** A call of one of the methods of contractOrderStackData whose code is
    complete in this module, and the stack it leaves. *)
Inductive method_call : Type :=
  | PutList (list_of_contract_orders : list contractOrder)
            (unlock_when_finished : bool)
  | RollbackList (list_of_child_ids : list Z)
  | UnlockList (list_of_child_ids : list Z)
  | AddControllingAlgoRef (order_id : Z) (control_algo_ref : option string)
  | ReleaseFromAlgoControl (order_id : Z).

Definition run_call (c : method_call) (st : StackState) : StackState :=
  match c with
  | PutList orders unlock =>
      snd (put_list_of_orders_on_stack orders unlock st)
  | RollbackList ids => snd (rollback_list_of_orders_on_stack ids st)
  | UnlockList ids => snd (unlock_list_of_orders ids st)
  | AddControllingAlgoRef order_id ref =>
      snd (add_controlling_algo_ref order_id ref st)
  | ReleaseFromAlgoControl order_id =>
      snd (release_order_from_algo_control order_id st)
  end.

Definition run_calls (cs : list method_call) (st : StackState) : StackState :=
  fold_left (fun st c => run_call c st) cs st.

(** A monadic action keeps every id in use below the counter and never
    moves the counter back. *)
Definition keeps_counter {A} (m : StackM A) : Prop :=
  forall st,
    (stack_wf st -> stack_wf (snd (m st)))
    /\ next_order_id st <= next_order_id (snd (m st)).

End ContractOrderStack.

(** ** Orders and stacks to run the methods on *)

Module Fixtures.

(** The order the constructor builds from a tradeable object, a trade
    vector and a controlling reference, all other keywords at their
    defaults and the clock at 0. *)
Definition order_of (t : contractTradeableObject) (trade : list Z)
    (controlling_algo : option string) : contractOrder :=
  {| _tradeable_object := t;
     _trade := trade;
     _fill := repeat 0 (length trade);
     _fill_datetime := None;
     _filled_price := None;
     _locked := false;
     _order_id := no_order_id;
     _modification_status := MODIFICATION_STATUS_NO_MODIFICATION;
     _modification_quantity := None;
     _parent := no_parent;
     _children := no_children;
     _active := true;
     _order_info :=
       {| algo_to_use := "";
          reference_price := None;
          limit_price := None;
          manual_trade := false;
          manual_fill := false;
          roll_order := false;
          calendar_spread_order := if Nat.eqb (length trade) 1 then false else true;
          inter_spread_order := false;
          generated_datetime := 0;
          reference_of_controlling_algo := controlling_algo |} |}.

Definition edollar_march : contractOrder :=
  order_of (mkTradeable "stratA" "EDOLLAR" ["201903"]) [6] None.

Definition edollar_june : contractOrder :=
  order_of (mkTradeable "stratA" "EDOLLAR" ["201906"]) [3] None.

Definition edollar_spread : contractOrder :=
  order_of (mkTradeable "stratA" "EDOLLAR" ["201903"; "201906"]) [6; -6] None.

Definition bund_controlled : contractOrder :=
  ContractOrder.with_order_id (Some 1)
    (order_of (mkTradeable "stratB" "BUND" ["201906"]) [2] (Some "algoA")).

Definition bund_uncontrolled : contractOrder :=
  ContractOrder.with_order_id (Some 1)
    (order_of (mkTradeable "stratB" "BUND" ["201906"]) [2] None).

(** A stack holding one order under id 1, with a store that refuses no
    insert. *)
Definition stack_with (o : contractOrder) : StackState :=
  mkStack {[ 1 := o ]} 2 (fun _ _ => false) [].

(** A batch whose third order repeats the first. *)
Definition batch_with_duplicate : list contractOrder :=
  [edollar_march; edollar_june; edollar_march; edollar_spread].

End Fixtures.

(** * Properties *)

(** ** str.split and str.join *)

Lemma split_not_nil (c : ascii) (s : string) : PyStr.split c s <> [].
Proof.
  destruct s as [|a rest]; simpl; [discriminate|].
  destruct (Ascii.eqb a c); [discriminate|].
  destruct (PyStr.split c rest); discriminate.
Qed.

(** Joining the pieces of a split gives the string back. *)
Lemma join_split (c : ascii) (s : string) : PyStr.join c (PyStr.split c s) = s.
Proof.
  induction s as [|a rest IH]; simpl; [reflexivity|].
  destruct (Ascii.eqb a c) eqn:Hac.
  - apply Ascii.eqb_eq in Hac; subst a.
    destruct (PyStr.split c rest) as [|p ps] eqn:Hs.
    + exfalso; exact (split_not_nil c rest Hs).
    + simpl in *. now rewrite IH.
  - destruct (PyStr.split c rest) as [|p ps] eqn:Hs.
    + exfalso; exact (split_not_nil c rest Hs).
    + destruct ps as [|q qs]; simpl in *; now rewrite <- IH.
Qed.

(** A split has one piece more than the string has separators. *)
Lemma length_split (c : ascii) (s : string) :
  length (PyStr.split c s) = S (PyStr.count c s).
Proof.
  induction s as [|a rest IH]; simpl; [reflexivity|].
  destruct (Ascii.eqb a c); simpl.
  - now rewrite IH.
  - destruct (PyStr.split c rest); simpl in *; lia.
Qed.

Lemma count_append (c : ascii) (s1 s2 : string) :
  PyStr.count c (String.append s1 s2) = (PyStr.count c s1 + PyStr.count c s2)%nat.
Proof. induction s1 as [|a rest IH]; simpl; [reflexivity|]. rewrite IH. lia. Qed.

Lemma join_cons2 (c : ascii) (x y : string) (l : list string) :
  PyStr.join c (x :: y :: l)
  = String.append x (String c (PyStr.join c (y :: l))).
Proof. reflexivity. Qed.

Lemma count_join_other (c sep : ascii) (l : list string) :
  Ascii.eqb sep c = false ->
  Forall (PyStr.free_of c) l -> PyStr.count c (PyStr.join sep l) = O.
Proof.
  intros Hsep Hl. induction Hl as [|x rest Hx Hrest IH]; [reflexivity|].
  destruct rest as [|y rest']; [exact Hx|].
  rewrite join_cons2, count_append.
  change (PyStr.count c (String sep (PyStr.join sep (y :: rest'))))
    with ((if Ascii.eqb sep c then 1 else 0)
          + PyStr.count c (PyStr.join sep (y :: rest')))%nat.
  rewrite Hsep, IH. unfold PyStr.free_of in Hx. lia.
Qed.

(** ** contractTradeableObject *)

(** [from_key] goes through exactly on the strings with two slashes. *)
Lemma from_key_two_slashes (k : string) :
  PyStr.count slash k = 2%nat ->
  exists a b c,
    PyStr.split slash k = [a; b; c]
    /\ from_key k = Ok (mkTradeable a b (PyStr.split underscore c)).
Proof.
  intros Hk. pose proof (length_split slash k) as Hlen. rewrite Hk in Hlen.
  unfold from_key.
  destruct (PyStr.split slash k) as [|a [|b [|c [|d rest]]]]; try discriminate.
  exists a, b, c. split; reflexivity.
Qed.

Lemma from_key_other_slashes (k : string) :
  PyStr.count slash k <> 2%nat -> from_key k = Raise ValueError.
Proof.
  intros Hk. pose proof (length_split slash k) as Hlen. unfold from_key.
  destruct (PyStr.split slash k) as [|a [|b [|c [|d rest]]]]; try reflexivity.
  simpl in Hlen. congruence.
Qed.

(** The key of what [from_key] builds is the string it was given. *)
Lemma key_from_key (k : string) (t : contractTradeableObject) :
  from_key k = Ok t -> key t = k.
Proof.
  unfold from_key. intros H.
  destruct (PyStr.split slash k) as [|a [|b [|c [|d rest]]]] eqn:Hs;
    try discriminate.
  injection H as <-. unfold key, contract_id_key. simpl contract_id.
  rewrite join_split. simpl strategy_name. simpl instrument_code.
  rewrite <- Hs. apply join_split.
Qed.

Lemma count_key (t : contractTradeableObject) :
  PyStr.count slash (key t)
  = (PyStr.count slash (strategy_name t)
     + PyStr.count slash (instrument_code t)
     + PyStr.count slash (contract_id_key t) + 2)%nat.
Proof.
  unfold key. simpl. rewrite count_append. simpl. rewrite count_append.
  simpl. lia.
Qed.

(** The keys of the scenario: one leg, and two legs joined by "_". *)
Lemma key_single_leg :
  key (new_contractTradeableObject "stratA" "EDOLLAR" (CidStr "201903"))
  = "stratA/EDOLLAR/201903".
Proof. reflexivity. Qed.

Lemma key_two_legs :
  key (new_contractTradeableObject "stratA" "EDOLLAR"
         (CidList ["201903"; "201906"]))
  = "stratA/EDOLLAR/201903_201906".
Proof. reflexivity. Qed.

(** C2 (as amended): for every TradeableObject whose strategy name,
    instrument code and legs hold no "/", [from_key] accepts its key and the
    object it builds has that same key, for one leg and for several. *)
Theorem from_key_key_roundtrip (t : contractTradeableObject) :
  PyStr.free_of slash (strategy_name t) ->
  PyStr.free_of slash (instrument_code t) ->
  Forall (PyStr.free_of slash) (contract_id t) ->
  exists t', from_key (key t) = Ok t' /\ key t' = key t.
Proof.
  intros Hs Hi Hl.
  assert (Hcount : PyStr.count slash (key t) = 2%nat).
  { rewrite count_key. unfold contract_id_key.
    rewrite (count_join_other slash underscore) by (reflexivity || assumption).
    unfold PyStr.free_of in Hs, Hi. lia. }
  destruct (from_key_two_slashes _ Hcount) as (a & b & c & _ & Hok).
  eexists. split; [exact Hok|]. now apply key_from_key.
Qed.

Lemma from_key_key_roundtrip_witness :
  let t := new_contractTradeableObject "stratA" "EDOLLAR"
             (CidList ["201903"; "201906"]) in
  exists t', from_key (key t) = Ok t' /\ key t' = key t.
Proof.
  apply (from_key_key_roundtrip
           (new_contractTradeableObject "stratA" "EDOLLAR"
              (CidList ["201903"; "201906"]))).
  - reflexivity.
  - reflexivity.
  - repeat constructor.
Defined.

(** C2 as stated fails: a strategy name may hold the separator, and then the
    key has three slashes and [from_key] raises. *)
Lemma from_key_key_slash_in_name :
  let t := new_contractTradeableObject "a/b" "X" (CidStr "201903") in
  contract_id t <> []
  /\ key t = "a/b/X/201903"
  /\ from_key (key t) = Raise ValueError.
Proof. repeat split. discriminate. Qed.

(** C3 (as amended): [from_key] raises ValueError exactly on the strings that
    do not hold two slashes, building nothing; on a string with two slashes
    it always builds the object, whose legs are the split of the third piece
    on "_" and are never the empty list. *)
Theorem from_key_outcome (s : string) :
  match from_key s with
  | Raise e => e = ValueError /\ PyStr.count slash s <> 2%nat
  | Ok t =>
      PyStr.count slash s = 2%nat
      /\ contract_id t <> []
      /\ exists a b c,
           PyStr.split slash s = [a; b; c]
           /\ t = mkTradeable a b (PyStr.split underscore c)
  end.
Proof.
  destruct (Nat.eq_dec (PyStr.count slash s) 2%nat) as [H2 | H2].
  - destruct (from_key_two_slashes s H2) as (a & b & c & Hs & Hok).
    rewrite Hok. split; [exact H2|]. split.
    + apply split_not_nil.
    + exists a, b, c. split; [exact Hs | reflexivity].
  - rewrite (from_key_other_slashes s H2). split; [reflexivity | exact H2].
Qed.

(** C3 as stated fails: with an empty leg string the split on "_" is the
    one-element list [""], and the object is built. *)
Lemma from_key_empty_leg_string :
  PyStr.split slash "stratA/EDOLLAR/" = ["stratA"; "EDOLLAR"; ""]
  /\ from_key "stratA/EDOLLAR/" = Ok (mkTradeable "stratA" "EDOLLAR" [""]).
Proof. split; reflexivity. Qed.

(** ** alt_key *)

Lemma alt_key_six_digits (strategy instrument c : string) :
  String.length c = 6%nat ->
  alt_key (new_contractTradeableObject strategy instrument (CidStr c))
  = Ok (PyStr.join slash [strategy; instrument; String.append c "00"]).
Proof.
  intros Hc. unfold alt_key, alt_contract_id_key, contract_id_key. simpl.
  now rewrite Hc.
Qed.

Lemma alt_key_eight_digits (strategy instrument c : string) :
  String.length c = 8%nat ->
  alt_key (new_contractTradeableObject strategy instrument (CidStr c))
  = Ok (PyStr.join slash [strategy; instrument; String.substring 0 6 c]).
Proof.
  intros Hc. unfold alt_key, alt_contract_id_key, contract_id_key. simpl.
  now rewrite Hc.
Qed.

Lemma length_append (s1 s2 : string) :
  String.length (String.append s1 s2)
  = (String.length s1 + String.length s2)%nat.
Proof. induction s1 as [|a r IH]; simpl; [reflexivity | now rewrite IH]. Qed.

Lemma length_join_cons2 (c : ascii) (x y : string) (l : list string) :
  String.length (PyStr.join c (x :: y :: l))
  = (String.length x + S (String.length (PyStr.join c (y :: l))))%nat.
Proof. rewrite join_cons2, length_append. reflexivity. Qed.

(** Two legs or more of six characters or more join to over eight. *)
Lemma length_join_long (c : ascii) (l : list string) :
  (2 <= length l)%nat ->
  Forall (fun leg => (6 <= String.length leg)%nat) l ->
  (13 <= String.length (PyStr.join c l))%nat.
Proof.
  intros Hlen Hl.
  destruct l as [|x [|y rest]]; simpl in Hlen; try lia.
  inversion Hl as [|? ? Hx Hl']; subst. inversion Hl' as [|? ? Hy Hl'']; subst.
  rewrite length_join_cons2.
  destruct rest as [|z rest'].
  - simpl. lia.
  - rewrite length_join_cons2. lia.
Qed.

(** On every spread of 6- or 8-digit legs [alt_key] raises. *)
Lemma alt_key_spread_raises (t : contractTradeableObject) :
  (2 <= length (contract_id t))%nat ->
  Forall (fun leg => String.length leg = 6%nat \/ String.length leg = 8%nat)
         (contract_id t) ->
  alt_key t = Raise TypeError.
Proof.
  intros Hlen Hl.
  assert (H13 : (13 <= String.length (contract_id_key t))%nat).
  { apply length_join_long; [exact Hlen|].
    eapply Forall_impl; [exact Hl|]. simpl. lia. }
  unfold alt_key, alt_contract_id_key.
  destruct (Nat.eqb_spec (String.length (contract_id_key t)) 6); [lia|].
  destruct (Nat.eqb_spec (String.length (contract_id_key t)) 8); [lia|].
  reflexivity.
Qed.

(** C4: on the two-leg object stratA/EDOLLAR/201903_201906 the joined leg
    string has 13 characters, [alt_contract_id_key] returns None and
    [alt_key] raises TypeError, where the legs 20190300 and 20190600 were
    to be substituted. *)
Theorem alt_key_spread_type_error :
  let t := new_contractTradeableObject "stratA" "EDOLLAR"
             (CidList ["201903"; "201906"]) in
  contract_id_key t = "201903_201906"
  /\ alt_contract_id_key t = None
  /\ alt_key t = Raise TypeError.
Proof. repeat split. Qed.

(** ** contractOrder *)

(** No mutating method changes the number of trade entries or the
    calendar-spread flag, and none breaks the agreement of the lengths of
    fill and trade. *)
Lemma mutate_invariants (m : ContractOrder.mutation) (o : contractOrder) :
  length (ContractOrder.trade (ContractOrder.mutate m o))
  = length (ContractOrder.trade o)
  /\ ContractOrder.get_calendar_spread_order (ContractOrder.mutate m o)
     = ContractOrder.get_calendar_spread_order o
  /\ (length (ContractOrder.fill o) = length (ContractOrder.trade o) ->
      length (ContractOrder.fill (ContractOrder.mutate m o))
      = length (ContractOrder.trade (ContractOrder.mutate m o))).
Proof.
  destruct m; cbn [ContractOrder.mutate]; try (repeat split; tauto).
  - unfold ContractOrder.add_controlling_algo_ref.
    destruct (ContractOrder.is_order_controlled_by_algo o);
      repeat split; tauto.
  - unfold ContractOrder.record_fill.
    destruct (Nat.eqb_spec (length fill_qty) (length (ContractOrder.trade o)))
      as [Hq | Hq]; cbn [negb]; [|repeat split; tauto].
    destruct (ContractOrder.fill_less_than_or_equal_to_desired_trade o _);
      [|repeat split; tauto].
    repeat split. intros Hlen. cbn.
    rewrite length_zip_with. unfold ContractOrder.fill, ContractOrder.trade in *.
    lia.
  - unfold ContractOrder.request_modification.
    destruct (_locked o); [repeat split; tauto|].
    destruct (negb _); [repeat split; tauto|].
    destruct (ContractOrder.new_qty_less_than_fill o new_qty);
      repeat split; tauto.
  - unfold ContractOrder.modification_placed_on_stack.
    destruct (_modification_status o); repeat split; tauto.
  - unfold ContractOrder.complete_modification.
    destruct (ContractOrder.modification_quantity o) as [q|];
      [|repeat split; tauto].
    destruct (_locked o); [repeat split; tauto|].
    destruct (Nat.eqb_spec (length q) (length (ContractOrder.trade o)))
      as [Hq | Hq]; cbn [negb]; [|repeat split; tauto].
    destruct (ContractOrder.new_qty_less_than_fill o q);
      [repeat split; tauto|].
    repeat split; cbn; [exact Hq|].
    intros Hlen. unfold ContractOrder.fill, ContractOrder.trade in *. lia.
  - unfold ContractOrder.fail_modification.
    destruct (ContractOrder.modification_quantity o); repeat split; tauto.
Qed.

Lemma mutate_all_invariants (ms : list ContractOrder.mutation)
    (o : contractOrder) :
  length (ContractOrder.trade (ContractOrder.mutate_all ms o))
  = length (ContractOrder.trade o)
  /\ ContractOrder.get_calendar_spread_order (ContractOrder.mutate_all ms o)
     = ContractOrder.get_calendar_spread_order o
  /\ (length (ContractOrder.fill o) = length (ContractOrder.trade o) ->
      length (ContractOrder.fill (ContractOrder.mutate_all ms o))
      = length (ContractOrder.trade (ContractOrder.mutate_all ms o))).
Proof.
  revert o. induction ms as [|m ms IH]; intros o; [repeat split; tauto|].
  change (ContractOrder.mutate_all (m :: ms) o)
    with (ContractOrder.mutate_all ms (ContractOrder.mutate m o)).
  destruct (mutate_invariants m o) as (Ht1 & Hc1 & Hf1).
  destruct (IH (ContractOrder.mutate m o)) as (Ht & Hc & Hf).
  split; [congruence|]. split; [congruence|].
  intros Hlen. apply Hf, Hf1, Hlen.
Qed.

(** The scenario of a buy of 10: fills of 3 and then 4 are recorded, a third
    fill of 5 would take the fill to 12 and is rejected, the fill staying
    at 7. *)
Lemma record_fill_scenario :
  let o := Fixtures.order_of (mkTradeable "stratA" "EDOLLAR" ["201903"])
             [10] None in
  let first := ContractOrder.record_fill [3] None None o in
  let second := ContractOrder.record_fill [4] None None (snd first) in
  let third := ContractOrder.record_fill [5] None None (snd second) in
  fst first = Ok success /\ ContractOrder.fill (snd first) = [3]
  /\ fst second = Ok success /\ ContractOrder.fill (snd second) = [7]
  /\ fst third = Ok failure /\ ContractOrder.fill (snd third) = [7].
Proof. repeat split. Qed.

(** What the constructor stores, in terms of its arguments. *)
Lemma init_stores (now : Z) (args : order_args) (kw : order_kwargs)
    (o : contractOrder) :
  ContractOrder.__init__ now args kw = Ok o ->
  ContractOrder.fill o
  = match kw_fill kw with
    | None => repeat 0 (length (ContractOrder.trade o))
    | Some f => f
    end
  /\ ContractOrder.get_calendar_spread_order o
     = negb (Nat.eqb (length (ContractOrder.trade o)) 1).
Proof.
  unfold ContractOrder.__init__. intros H.
  destruct (ContractOrder._resolve_args args) as [[tobj tr]|e]; [|discriminate].
  injection H as <-. unfold ContractOrder.get_calendar_spread_order.
  simpl. split; [reflexivity|].
  now destruct (Nat.eqb _ 1).
Qed.

Lemma construct_stores (c : ContractOrder.construction) (o : contractOrder) :
  ContractOrder.construct c = Ok o ->
  ContractOrder.fill o
  = match ContractOrder.supplied_fill c with
    | None => repeat 0 (length (ContractOrder.trade o))
    | Some f => f
    end
  /\ ContractOrder.get_calendar_spread_order o
     = negb (Nat.eqb (length (ContractOrder.trade o)) 1).
Proof.
  destruct c as [now args kw | now d]; simpl; intros H.
  - exact (init_stores _ _ _ _ H).
  - unfold ContractOrder.from_dict in H. exact (init_stores _ _ _ _ H).
Qed.

(** C5 (as amended): an order constructed without a fill, or with a fill of
    as many entries as its trade, has [len(fill) == len(trade)], through the
    constructor and through [from_dict] alike, and keeps it under every
    mutating operation, the recording of fills and the modification of the
    quantity included; a supplied fill is stored as it is. *)
Theorem fill_length_invariant (c : ContractOrder.construction)
    (o : contractOrder) (ms : list ContractOrder.mutation) :
  ContractOrder.construct c = Ok o ->
  (forall f, ContractOrder.supplied_fill c = Some f ->
             length f = length (ContractOrder.trade o)) ->
  length (ContractOrder.fill (ContractOrder.mutate_all ms o))
  = length (ContractOrder.trade (ContractOrder.mutate_all ms o)).
Proof.
  intros Hc Hf. destruct (mutate_all_invariants ms o) as (_ & _ & Hkeep).
  apply Hkeep. destruct (construct_stores c o Hc) as [Hfill _]. rewrite Hfill.
  destruct (ContractOrder.supplied_fill c) as [f|].
  - now apply Hf.
  - apply repeat_length.
Qed.

Lemma fill_length_invariant_witness :
  let c := ContractOrder.ByFromDict 0
             (ContractOrder.dict_with_fill "stratA/EDOLLAR/201903_201906"
                (TradeList [6; 6]) (Some [2; 2])) in
  let ms := [ContractOrder.MRecordFill [3; 1] None (Some 5);
             ContractOrder.MRequestModification [5; 5];
             ContractOrder.MCompleteModification;
             ContractOrder.MLockOrder;
             ContractOrder.MAddControllingAlgoRef (Some "algoA");
             ContractOrder.MSetManualFill true] in
  exists o,
    ContractOrder.construct c = Ok o
    /\ ContractOrder.fill (ContractOrder.mutate_all ms o) = [5; 3]
    /\ ContractOrder.trade (ContractOrder.mutate_all ms o) = [5; 5]
    /\ length (ContractOrder.fill (ContractOrder.mutate_all ms o))
       = length (ContractOrder.trade (ContractOrder.mutate_all ms o)).
Proof.
  eexists. split; [reflexivity|]. split; [reflexivity|].
  split; [reflexivity|].
  eapply (fill_length_invariant
            (ContractOrder.ByFromDict 0
               (ContractOrder.dict_with_fill "stratA/EDOLLAR/201903_201906"
                  (TradeList [6; 6]) (Some [2; 2])))).
  - reflexivity.
  - intros f Hf. simpl in Hf. injection Hf as <-. reflexivity.
Defined.

(** C5 as stated fails: [from_dict] passes the fill of the dict on, and the
    constructor stores it without looking at its length. *)
Lemma fill_length_from_dict_mismatch :
  let d := ContractOrder.dict_with_fill "stratA/EDOLLAR/201903"
             (TradeList [6]) (Some [1; 2]) in
  exists o,
    ContractOrder.from_dict 0 d = Ok o
    /\ ContractOrder.trade o = [6]
    /\ ContractOrder.fill o = [1; 2]
    /\ length (ContractOrder.fill o) <> length (ContractOrder.trade o).
Proof. eexists. repeat split. simpl. lia. Qed.

(** C6: on every constructed order with a trade entry, and after any
    mutating operations, [calendar_spread_order] is True exactly when the
    trade vector has more than one entry, and so False when it has one,
    whatever value the caller passed for it; no operation sets the flag or
    changes the number of entries. *)
Theorem calendar_spread_order_iff_multi_leg
    (c : ContractOrder.construction) (o : contractOrder)
    (ms : list ContractOrder.mutation) :
  ContractOrder.construct c = Ok o ->
  ContractOrder.trade o <> [] ->
  ContractOrder.get_calendar_spread_order (ContractOrder.mutate_all ms o)
  = true
  <-> (1 < length (ContractOrder.trade (ContractOrder.mutate_all ms o)))%nat.
Proof.
  intros Hc Hne. destruct (mutate_all_invariants ms o) as (-> & -> & _).
  rewrite (proj2 (construct_stores c o Hc)).
  destruct (ContractOrder.trade o) as [|x [|y rest]]; [congruence| |];
    simpl; split; intros H; try reflexivity; try discriminate; lia.
Qed.

Lemma calendar_spread_order_iff_multi_leg_witness :
  let c := ContractOrder.ByInit 0
             (ArgsKey "stratA/EDOLLAR/201903_201906" (TradeList [6; -6]))
             (ContractOrder.kwargs_with_calendar_spread (Some false)) in
  let ms := [ContractOrder.MRequestModification [4; -6];
             ContractOrder.MCompleteModification] in
  exists o,
    ContractOrder.construct c = Ok o
    /\ ContractOrder.trade o <> []
    /\ (ContractOrder.get_calendar_spread_order
          (ContractOrder.mutate_all ms o) = true
        <-> (1 < length (ContractOrder.trade
                           (ContractOrder.mutate_all ms o)))%nat).
Proof.
  eexists. split; [reflexivity|]. split; [discriminate|].
  apply (calendar_spread_order_iff_multi_leg
           (ContractOrder.ByInit 0
              (ArgsKey "stratA/EDOLLAR/201903_201906" (TradeList [6; -6]))
              (ContractOrder.kwargs_with_calendar_spread (Some false)))).
  - reflexivity.
  - discriminate.
Defined.

(** ** contractOrderStackData: control by an algo *)

Lemma get_order_run (order_id : Z) (st : StackState) :
  ContractOrderStack.get_order_with_id_from_stack order_id st
  = (Ok (_stack st !! order_id),
     ContractOrderStack.log_call (CallGet order_id) st).
Proof. reflexivity. Qed.

Lemma controlled_iff (o : contractOrder) :
  ContractOrder.is_order_controlled_by_algo o = true
  <-> ContractOrder.get_reference_of_controlling_algo o <> None.
Proof.
  unfold ContractOrder.is_order_controlled_by_algo,
         ContractOrder.get_reference_of_controlling_algo.
  destruct (reference_of_controlling_algo (_order_info o)); split;
    congruence.
Qed.

(** C7: on an order that has a controlling algo, [add_controlling_algo_ref]
    raises and leaves the order as it was; through the stack, on the id of
    that order and with a new reference, the call raises after reading the
    order, and the stack holds the same orders as before, this one with its
    reference unchanged. *)
Theorem add_controlling_algo_ref_double_control (o : contractOrder)
    (control_algo_ref : option string) (st : StackState) (order_id : Z)
    (new_ref : string) :
  ContractOrder.get_reference_of_controlling_algo o <> None ->
  _stack st !! order_id = Some o ->
  ContractOrder.add_controlling_algo_ref control_algo_ref o
  = (Raise RaisedException, o)
  /\ exists st',
       ContractOrderStack.add_controlling_algo_ref order_id (Some new_ref) st
       = (Raise RaisedException, st')
       /\ _stack st' = _stack st
       /\ _stack st' !! order_id = Some o
       /\ next_order_id st' = next_order_id st
       /\ calls st' = (calls st ++ [CallGet order_id])%list.
Proof.
  intros Hctl Hget. apply controlled_iff in Hctl. split.
  - unfold ContractOrder.add_controlling_algo_ref. now rewrite Hctl.
  - exists (ContractOrderStack.log_call (CallGet order_id) st).
    unfold ContractOrderStack.add_controlling_algo_ref,
           ContractOrderStack.bind.
    rewrite get_order_run, Hget. unfold ContractOrderStack.copy.
    unfold ContractOrder.add_controlling_algo_ref. rewrite Hctl.
    repeat split. exact Hget.
Qed.

(** C8: releasing an order on the stack that no algo controls returns
    success after one read and no write; the stored orders are the same, and
    a second release does the same again. *)
Theorem release_uncontrolled_is_noop (st : StackState) (order_id : Z)
    (o : contractOrder) :
  _stack st !! order_id = Some o ->
  ContractOrder.is_order_controlled_by_algo o = false ->
  let once := ContractOrderStack.release_order_from_algo_control order_id st in
  let twice :=
    ContractOrderStack.release_order_from_algo_control order_id (snd once) in
  fst once = Ok success
  /\ _stack (snd once) = _stack st
  /\ next_order_id (snd once) = next_order_id st
  /\ calls (snd once) = (calls st ++ [CallGet order_id])%list
  /\ fst twice = fst once
  /\ _stack (snd twice) = _stack (snd once)
  /\ calls (snd twice) = (calls (snd once) ++ [CallGet order_id])%list.
Proof.
  intros Hget Hfree.
  assert (Hrun : forall st0, _stack st0 !! order_id = Some o ->
            ContractOrderStack.release_order_from_algo_control order_id st0
            = (Ok success, ContractOrderStack.log_call (CallGet order_id) st0)).
  { intros st0 H0.
    unfold ContractOrderStack.release_order_from_algo_control,
           ContractOrderStack.bind.
    rewrite get_order_run, H0, Hfree. reflexivity. }
  cbv zeta. rewrite (Hrun st Hget). cbn [fst snd].
  rewrite (Hrun (ContractOrderStack.log_call (CallGet order_id) st) Hget).
  repeat split.
Qed.

(** C10: with [None] for the reference, the stack's
    [add_controlling_algo_ref] is [release_order_from_algo_control]. *)
Theorem add_controlling_algo_ref_none_releases (order_id : Z)
    (st : StackState) :
  ContractOrderStack.add_controlling_algo_ref order_id None st
  = ContractOrderStack.release_order_from_algo_control order_id st.
Proof. reflexivity. Qed.

(** So on a controlled order it does not raise: it clears the reference. *)
Lemma add_controlling_algo_ref_none_on_controlled (st : StackState)
    (order_id : Z) (o : contractOrder) :
  _stack st !! order_id = Some o ->
  ContractOrder.is_order_controlled_by_algo o = true ->
  exists st',
    ContractOrderStack.add_controlling_algo_ref order_id None st
    = (Ok success, st')
    /\ _stack st' !! order_id
       = Some (snd (ContractOrder.release_order_from_algo_control o)).
Proof.
  intros Hget Hctl. eexists.
  unfold ContractOrderStack.add_controlling_algo_ref,
         ContractOrderStack.release_order_from_algo_control,
         ContractOrderStack.bind.
  rewrite get_order_run, Hget, Hctl. cbn [negb].
  unfold ContractOrderStack.copy, ContractOrderStack._change_order_on_stack.
  cbn [ContractOrder.release_order_from_algo_control].
  cbn [ContractOrderStack.log_call _stack]. rewrite Hget. cbn [andb].
  split; [reflexivity|]. cbn [ContractOrderStack.with_stack _stack snd].
  apply lookup_insert_eq.
Qed.

(** ** contractOrderStackData: lists of orders *)

(** C9: on the empty list [put_list_of_orders_on_stack] returns the empty
    list of ids and the stack object is the one it was: the same orders, the
    same next id, and no call made to the store. *)
Theorem put_empty_list_is_noop (unlock_when_finished : bool)
    (st : StackState) :
  ContractOrderStack.put_list_of_orders_on_stack [] unlock_when_finished st
  = (Ok (inl []), st).
Proof. reflexivity. Qed.

Lemma put_order_cases (o : contractOrder) (st : StackState) :
  (exists e,
     ContractOrderStack.put_order_on_stack o st
     = (Ok (inr e), ContractOrderStack.log_call (CallPut o (inr e)) st))
  \/ ContractOrderStack.put_order_on_stack o st
     = (Ok (inl (next_order_id st)),
        mkStack
          (<[next_order_id st :=
               ContractOrder.with_order_id (Some (next_order_id st)) o]>
             (_stack st))
          (next_order_id st + 1) (insert_refused st)
          (calls st ++ [CallPut o (inl (next_order_id st))])%list).
Proof.
  unfold ContractOrderStack.put_order_on_stack.
  destruct (ContractOrderStack.duplicate_on_stack (_stack st) o);
    [left; eauto|].
  destruct (insert_refused st (_stack st) o); [left; eauto|].
  right; reflexivity.
Qed.

(** The loop either puts every order, or stops at the first one refused. *)
Lemma put_loop_outcome (orders : list contractOrder) :
  forall (acc : list Z) (st : StackState),
  exists (new : list Z) (st' : StackState),
    ContractOrderStack.inserted_only st st' new
    /\ ((ContractOrderStack.put_loop orders acc st
         = (Ok ((acc ++ new)%list, success), st')
         /\ length new = length orders
         /\ calls st'
            = (calls st ++ ContractOrderStack.put_calls orders new)%list)
        \/ (exists pre bad post e,
              orders = (pre ++ bad :: post)%list
              /\ length new = length pre
              /\ ContractOrderStack.put_loop orders acc st
                 = (Ok ((acc ++ new)%list, failure), st')
              /\ calls st'
                 = (calls st ++ ContractOrderStack.put_calls pre new
                    ++ [CallPut (snd (ContractOrder.lock_order bad)) (inr e)])%list)).
Proof.
  induction orders as [|o rest IH]; intros acc st.
  - exists [], st. split.
    + repeat split; [lia | constructor].
    + left. simpl. rewrite !app_nil_r. repeat split.
  - cbn [ContractOrderStack.put_loop]. unfold ContractOrderStack.bind.
    destruct (put_order_cases (snd (ContractOrder.lock_order o)) st)
      as [[e He] | Hput].
    + rewrite He. exists [], (ContractOrderStack.log_call
                               (CallPut (snd (ContractOrder.lock_order o)) (inr e)) st).
      split.
      * repeat split; [simpl; lia | constructor].
      * right. exists [], o, rest, e. rewrite app_nil_r. repeat split.
    + rewrite Hput. set (n := next_order_id st) in *.
      set (st1 := mkStack _ _ _ _).
      destruct (IH (acc ++ [n])%list st1) as (new & st' & Hfr & Hcases).
      destruct Hfr as (Hnext & Hnew & Hframe).
      exists (n :: new), st'. split.
      * repeat split.
        -- simpl in Hnext. fold n. lia.
        -- constructor; [fold n; lia|].
           eapply Forall_impl; [exact Hnew|]. simpl. fold n. intros; lia.
        -- intros j Hj. apply not_elem_of_cons in Hj as [Hjn Hjnew].
           rewrite (Hframe j Hjnew). subst st1. simpl.
           now apply lookup_insert_ne.
      * rewrite <- app_assoc in Hcases. simpl in Hcases.
        destruct Hcases as [(Hrun & Hlen & Hcalls)
                           | (pre & bad & post & e & Ho & Hlen & Hrun & Hcalls)].
        -- left. repeat split; [exact Hrun | simpl; lia |].
           rewrite Hcalls. subst st1. simpl. now rewrite <- app_assoc.
        -- right. exists (o :: pre), bad, post, e. repeat split.
           ++ now rewrite Ho.
           ++ simpl; lia.
           ++ exact Hrun.
           ++ rewrite Hcalls. subst st1. simpl. now rewrite <- app_assoc.
Qed.

(** Unlock, deactivate, remove: the id is gone whether or not it was there. *)
Lemma rollback_step {A} (i : Z) (k : ContractOrderStack.StackM A)
    (st : StackState) :
  ContractOrderStack.bind (ContractOrderStack._unlock_order_on_stack i)
    (fun _ =>
       ContractOrderStack.bind (ContractOrderStack.deactivate_order i)
         (fun _ =>
            ContractOrderStack.bind
              (ContractOrderStack.remove_order_with_id_from_stack i)
              (fun _ => k))) st
  = k (mkStack (delete i (_stack st)) (next_order_id st) (insert_refused st)
         (calls st ++ ContractOrderStack.rollback_calls [i])%list).
Proof.
  unfold ContractOrderStack.bind, ContractOrderStack._unlock_order_on_stack,
         ContractOrderStack.deactivate_order,
         ContractOrderStack.remove_order_with_id_from_stack,
         ContractOrderStack.log_call, ContractOrderStack.with_stack.
  cbn [_stack next_order_id insert_refused calls].
  destruct (_stack st !! i) as [o|] eqn:Hi.
  - cbn [_stack next_order_id insert_refused calls].
    rewrite lookup_insert_eq.
    cbn [_stack next_order_id insert_refused calls].
    rewrite lookup_insert_eq.
    cbn [_stack next_order_id insert_refused calls].
    rewrite !delete_insert_eq, <- !app_assoc. reflexivity.
  - cbn [_stack next_order_id insert_refused calls]. rewrite Hi.
    cbn [_stack next_order_id insert_refused calls]. rewrite Hi.
    cbn [_stack next_order_id insert_refused calls].
    rewrite (delete_id _ _ Hi), <- !app_assoc. reflexivity.
Qed.

Lemma rollback_loop_run (ids : list Z) :
  forall st : StackState,
  exists st',
    ContractOrderStack.rollback_loop ids st = (Ok tt, st')
    /\ calls st' = (calls st ++ ContractOrderStack.rollback_calls ids)%list
    /\ next_order_id st' = next_order_id st
    /\ (forall j, j ∈ ids -> _stack st' !! j = None)
    /\ (forall j, j ∉ ids -> _stack st' !! j = _stack st !! j).
Proof.
  induction ids as [|i rest IH]; intros st.
  - exists st. simpl. rewrite app_nil_r. repeat split.
    intros j Hj. now apply elem_of_nil in Hj.
  - cbn [ContractOrderStack.rollback_loop]. rewrite rollback_step.
    set (st1 := mkStack _ _ _ _).
    destruct (IH st1) as (st' & Hrun & Hcalls & Hnext & Hin & Hout).
    exists st'. repeat split.
    + exact Hrun.
    + rewrite Hcalls. subst st1. simpl. now rewrite <- app_assoc.
    + rewrite Hnext. reflexivity.
    + intros j Hj. destruct (decide (j ∈ rest)) as [Hr | Hr]; [now apply Hin|].
      apply elem_of_cons in Hj as [-> | Hj]; [|contradiction].
      rewrite (Hout i Hr). subst st1. simpl. apply lookup_delete_eq.
    + intros j Hj. apply not_elem_of_cons in Hj as [Hji Hjr].
      rewrite (Hout j Hjr). subst st1. simpl. now apply lookup_delete_ne.
Qed.

Lemma unlock_loop_run (ids : list Z) :
  forall st : StackState,
  exists st',
    ContractOrderStack.unlock_loop ids st = (Ok tt, st')
    /\ calls st' = (calls st ++ map CallUnlock ids)%list.
Proof.
  induction ids as [|i rest IH]; intros st.
  - exists st. simpl. now rewrite app_nil_r.
  - cbn [ContractOrderStack.unlock_loop].
    unfold ContractOrderStack.bind at 1.
    destruct (ContractOrderStack._unlock_order_on_stack i st) as [r st1] eqn:Hu.
    assert (Hst1 : is_ok r = true
                   /\ calls st1 = (calls st ++ [CallUnlock i])%list).
    { unfold ContractOrderStack._unlock_order_on_stack in Hu. simpl in Hu.
      destruct (_stack st !! i); injection Hu as <- <-; split; reflexivity. }
    destruct Hst1 as [Hok Hc1]. destruct r as [r|e]; [|discriminate].
    destruct (IH st1) as (st' & Hrun & Hcalls).
    exists st'. split; [exact Hrun|].
    rewrite Hcalls, Hc1, <- app_assoc. reflexivity.
Qed.

Lemma put_calls_return_ids (orders : list contractOrder) (ids : list Z)
    (c : store_call) :
  c ∈ ContractOrderStack.put_calls orders ids ->
  exists o i, c = CallPut o (inl i).
Proof.
  revert ids. induction orders as [|o rest IH]; intros [|i ids] Hc;
    simpl in Hc; try (now apply elem_of_nil in Hc).
  apply elem_of_cons in Hc as [-> | Hc]; [eauto | eapply IH; eauto].
Qed.

(** The two outcomes of [put_list_of_orders_on_stack]: every order put, or a
    refusal followed by the rollback of the ids put before it. *)
Lemma put_list_outcome (orders : list contractOrder)
    (unlock_when_finished : bool) (st : StackState) :
  ContractOrderStack.stack_wf st ->
  let run :=
    ContractOrderStack.put_list_of_orders_on_stack orders
      unlock_when_finished st in
  (exists ids,
     fst run = Ok (inl ids)
     /\ length ids = length orders
     /\ calls (snd run)
        = (calls st ++ ContractOrderStack.put_calls orders ids
           ++ (if unlock_when_finished then map CallUnlock ids else []))%list)
  \/ (exists pre bad post ids e,
        orders = (pre ++ bad :: post)%list
        /\ length ids = length pre
        /\ calls (snd run)
           = (calls st ++ ContractOrderStack.put_calls pre ids
              ++ [CallPut (snd (ContractOrder.lock_order bad)) (inr e)]
              ++ ContractOrderStack.rollback_calls ids)%list
        /\ fst run = Ok (inr failure)
        /\ _stack (snd run) = _stack st).
Proof.
  intros Hwf run. subst run.
  destruct orders as [|o rest].
  { left. exists []. destruct unlock_when_finished; simpl;
      rewrite app_nil_r; repeat split. }
  destruct (put_loop_outcome (o :: rest) [] st)
    as (new & st1 & (Hnext & Hnew & Hframe) & Hcases).
  cbn [app] in Hcases.
  destruct Hcases as [(Hrun & Hlen & Hcalls)
                     | (pre & bad & post & e & Ho & Hlen & Hrun & Hcalls)].
  - left. exists new.
    destruct (unlock_loop_run new st1) as (st2 & Hun & Hc2).
    assert (Heq :
      ContractOrderStack.put_list_of_orders_on_stack (o :: rest)
        unlock_when_finished st
      = (Ok (inl new), if unlock_when_finished then st2 else st1)).
    { unfold ContractOrderStack.put_list_of_orders_on_stack.
      cbn [length Nat.eqb]. unfold ContractOrderStack.bind at 1.
      rewrite Hrun. cbn [fst snd]. destruct unlock_when_finished.
      - unfold ContractOrderStack.unlock_list_of_orders,
               ContractOrderStack.bind.
        rewrite Hun. reflexivity.
      - reflexivity. }
    rewrite Heq. cbn [fst snd]. repeat split; [exact Hlen|].
    destruct unlock_when_finished.
    + rewrite Hc2, Hcalls, <- app_assoc. reflexivity.
    + now rewrite app_nil_r.
  - right. exists pre, bad, post, new, e.
    destruct (rollback_loop_run new st1) as (st2 & Hrb & Hc2 & _ & Hin & Hout).
    assert (Heq :
      ContractOrderStack.put_list_of_orders_on_stack (o :: rest)
        unlock_when_finished st
      = (Ok (inr failure), st2)).
    { unfold ContractOrderStack.put_list_of_orders_on_stack.
      cbn [length Nat.eqb]. unfold ContractOrderStack.bind at 1.
      rewrite Hrun. cbn [fst snd].
      unfold ContractOrderStack.rollback_list_of_orders_on_stack,
             ContractOrderStack.bind.
      rewrite Hrb. reflexivity. }
    rewrite Heq. cbn [fst snd].
    repeat split; [exact Ho | exact Hlen | |].
    + rewrite Hc2, Hcalls, <- !app_assoc. reflexivity.
    + apply map_eq. intros j.
      destruct (decide (j ∈ new)) as [Hj | Hj].
      * rewrite (Hin j Hj). symmetry.
        destruct (_stack st !! j) as [oj|] eqn:Hsj; [|reflexivity].
        exfalso. apply Hwf in Hsj.
        rewrite Forall_forall in Hnew. specialize (Hnew j Hj). simpl in Hnew.
        lia.
      * rewrite (Hout j Hj). now apply Hframe.
Qed.

(** C1: when, during [put_list_of_orders_on_stack], a call of
    [put_order_on_stack] returns something that is not an id, the list splits
    at that order: the orders before it were put under [ids], no order after
    it is put, the rollback unlocks, deactivates and removes each of [ids]
    in turn and nothing else, the result is [failure], and the stack holds
    exactly the orders it held before the call. *)
Theorem put_list_failure_rolls_back (orders : list contractOrder)
    (unlock_when_finished : bool) (st : StackState) :
  ContractOrderStack.stack_wf st ->
  orders <> [] ->
  let run :=
    ContractOrderStack.put_list_of_orders_on_stack orders
      unlock_when_finished st in
  (exists o e,
     CallPut o (inr e) ∈ ContractOrderStack.calls_since st (snd run)) ->
  exists pre bad post ids e,
    orders = (pre ++ bad :: post)%list
    /\ length ids = length pre
    /\ ContractOrderStack.calls_since st (snd run)
       = (ContractOrderStack.put_calls pre ids
          ++ [CallPut (snd (ContractOrder.lock_order bad)) (inr e)]
          ++ ContractOrderStack.rollback_calls ids)%list
    /\ fst run = Ok (inr failure)
    /\ _stack (snd run) = _stack st.
Proof.
  intros Hwf _ run (o & e & Hcall).
  destruct (put_list_outcome orders unlock_when_finished st Hwf)
    as [(ids & Hres & Hlen & Hcalls)
       | (pre & bad & post & ids & e' & Ho & Hlen & Hcalls & Hres & Hstack)];
    fold run in Hcalls, Hres; unfold ContractOrderStack.calls_since in *.
  - exfalso. rewrite Hcalls, drop_app_length in Hcall.
    apply elem_of_app in Hcall as [Hcall | Hcall].
    + apply put_calls_return_ids in Hcall as (o' & i & Heq). discriminate.
    + destruct unlock_when_finished.
      * apply list_elem_of_fmap in Hcall as (i & Heq & _). discriminate.
      * now apply elem_of_nil in Hcall.
  - fold run in Hstack. exists pre, bad, post, ids, e'.
    rewrite Hcalls, drop_app_length. repeat split; assumption.
Qed.

Lemma stack_with_wf (o : contractOrder) :
  ContractOrderStack.stack_wf (Fixtures.stack_with o).
Proof.
  intros i o' Hi. simpl in Hi.
  apply lookup_singleton_Some in Hi as [<- _]. simpl. lia.
Qed.

Lemma put_list_failure_rolls_back_witness :
  let st := Fixtures.stack_with Fixtures.bund_controlled in
  let run :=
    ContractOrderStack.put_list_of_orders_on_stack
      Fixtures.batch_with_duplicate true st in
  exists pre bad post ids e,
    Fixtures.batch_with_duplicate = (pre ++ bad :: post)%list
    /\ length ids = length pre
    /\ ContractOrderStack.calls_since st (snd run)
       = (ContractOrderStack.put_calls pre ids
          ++ [CallPut (snd (ContractOrder.lock_order bad)) (inr e)]
          ++ ContractOrderStack.rollback_calls ids)%list
    /\ fst run = Ok (inr failure)
    /\ _stack (snd run) = _stack st.
Proof.
  apply (put_list_failure_rolls_back Fixtures.batch_with_duplicate true
           (Fixtures.stack_with Fixtures.bund_controlled)).
  - apply stack_with_wf.
  - discriminate.
  - exists (snd (ContractOrder.lock_order Fixtures.edollar_march)),
           duplicate_order.
    vm_compute. do 2 apply list_elem_of_further. apply list_elem_of_here.
Defined.

Lemma add_controlling_algo_ref_double_control_witness :
  let o := Fixtures.bund_controlled in
  let st := Fixtures.stack_with Fixtures.bund_controlled in
  ContractOrder.add_controlling_algo_ref (Some "algoB") o
  = (Raise RaisedException, o)
  /\ exists st',
       ContractOrderStack.add_controlling_algo_ref 1 (Some "algoB") st
       = (Raise RaisedException, st')
       /\ _stack st' = _stack st
       /\ _stack st' !! 1 = Some o
       /\ next_order_id st' = next_order_id st
       /\ calls st' = (calls st ++ [CallGet 1])%list.
Proof.
  apply (add_controlling_algo_ref_double_control Fixtures.bund_controlled
           (Some "algoB") (Fixtures.stack_with Fixtures.bund_controlled) 1
           "algoB").
  - simpl. discriminate.
  - reflexivity.
Defined.

Lemma release_uncontrolled_is_noop_witness :
  let st := Fixtures.stack_with Fixtures.bund_uncontrolled in
  let once := ContractOrderStack.release_order_from_algo_control 1 st in
  let twice :=
    ContractOrderStack.release_order_from_algo_control 1 (snd once) in
  fst once = Ok success
  /\ _stack (snd once) = _stack st
  /\ next_order_id (snd once) = next_order_id st
  /\ calls (snd once) = (calls st ++ [CallGet 1])%list
  /\ fst twice = fst once
  /\ _stack (snd twice) = _stack (snd once)
  /\ calls (snd twice) = (calls (snd once) ++ [CallGet 1])%list.
Proof.
  apply (release_uncontrolled_is_noop
           (Fixtures.stack_with Fixtures.bund_uncontrolled) 1
           Fixtures.bund_uncontrolled).
  - reflexivity.
  - reflexivity.
Defined.

(** A batch with no refusal: the ids come back in input order and the stored
    orders carry their id and, after the second pass, no lock. *)
Lemma put_list_success_run :
  let st := Fixtures.stack_with Fixtures.bund_controlled in
  let run :=
    ContractOrderStack.put_list_of_orders_on_stack
      [Fixtures.edollar_march; Fixtures.edollar_june] true st in
  fst run = Ok (inl [2; 3])
  /\ _stack (snd run) !! 2
     = Some (ContractOrder.with_order_id (Some 2) Fixtures.edollar_march)
  /\ _stack (snd run) !! 3
     = Some (ContractOrder.with_order_id (Some 3) Fixtures.edollar_june)
  /\ _stack (snd run) !! 1 = Some Fixtures.bund_controlled
  /\ next_order_id (snd run) = 4.
Proof. vm_compute. repeat split. Qed.


(** * Further properties *)

(** ** Keys of tradeable objects *)

Lemma free_of_cons (c a : ascii) (s : string) :
  PyStr.free_of c (String a s) -> Ascii.eqb a c = false /\ PyStr.free_of c s.
Proof.
  unfold PyStr.free_of. simpl. destruct (Ascii.eqb a c); [discriminate|].
  intros H. split; [reflexivity | exact H].
Qed.

Lemma split_free (c : ascii) (s : string) :
  PyStr.free_of c s -> PyStr.split c s = [s].
Proof.
  induction s as [|a rest IH]; intros H; [reflexivity|].
  apply free_of_cons in H as [Hac Hrest]. simpl. rewrite Hac, (IH Hrest).
  reflexivity.
Qed.

Lemma split_append_sep (c : ascii) (x rest : string) :
  PyStr.free_of c x ->
  PyStr.split c (String.append x (String c rest)) = x :: PyStr.split c rest.
Proof.
  induction x as [|a x' IH]; intros H.
  - simpl. now rewrite Ascii.eqb_refl.
  - apply free_of_cons in H as [Hac Hx']. simpl. rewrite Hac, (IH Hx').
    reflexivity.
Qed.

(** Splitting a join gives the pieces back when no piece holds the
    separator and there is a piece. *)
Lemma split_join (c : ascii) (l : list string) :
  l <> [] -> Forall (PyStr.free_of c) l ->
  PyStr.split c (PyStr.join c l) = l.
Proof.
  intros Hne Hl. induction Hl as [|x rest Hx Hrest IH]; [congruence|].
  destruct rest as [|y rest'].
  - simpl. now apply split_free.
  - rewrite join_cons2, (split_append_sep c x _ Hx), IH; [reflexivity|].
    discriminate.
Qed.

(** On such an object the key splits back into its three parts, and the
    third part into the legs. *)
Lemma split_key (t : contractTradeableObject) :
  separator_free t ->
  PyStr.split slash (key t)
  = [strategy_name t; instrument_code t; contract_id_key t]
  /\ PyStr.split underscore (contract_id_key t) = contract_id t.
Proof.
  intros (Hs & Hi & Hne & Hlegs).
  assert (Hslash : Forall (PyStr.free_of slash) (contract_id t)).
  { eapply Forall_impl; [exact Hlegs|]. simpl. tauto. }
  assert (Hunder : Forall (PyStr.free_of underscore) (contract_id t)).
  { eapply Forall_impl; [exact Hlegs|]. simpl. tauto. }
  split.
  - unfold key. apply split_join; [discriminate|].
    repeat constructor; try assumption. unfold PyStr.free_of, contract_id_key.
    now apply (count_join_other slash underscore).
  - unfold contract_id_key. now apply split_join.
Qed.

(** X1: on an object whose names hold no "/" and whose legs, at least one,
    hold neither "/" nor "_", [from_key] is the exact inverse of [key]: it
    builds the very object the key came from. *)
Theorem from_key_inverts_key (t : contractTradeableObject) :
  separator_free t -> from_key (key t) = Ok t.
Proof.
  intros Hsf. destruct (split_key t Hsf) as [Hkey Hlegs].
  unfold from_key. rewrite Hkey. unfold new_contractTradeableObject.
  rewrite Hlegs. destruct t; reflexivity.
Qed.

Lemma from_key_inverts_key_witness :
  let t := mkTradeable "stratA" "EDOLLAR" ["201903"; "201906"] in
  separator_free t /\ from_key (key t) = Ok t.
Proof.
  assert (Hsf : separator_free
                  (mkTradeable "stratA" "EDOLLAR" ["201903"; "201906"])).
  { repeat split; try discriminate. repeat constructor. }
  split; [exact Hsf|].
  apply (from_key_inverts_key
           (mkTradeable "stratA" "EDOLLAR" ["201903"; "201906"])).
  exact Hsf.
Defined.

(** X2: among such objects the key identifies the object: equal keys, equal
    strategy, instrument and legs. *)
Theorem key_injective (t1 t2 : contractTradeableObject) :
  separator_free t1 -> separator_free t2 -> key t1 = key t2 -> t1 = t2.
Proof.
  intros H1 H2 Hk.
  destruct (split_key t1 H1) as [Hkey1 Hlegs1].
  destruct (split_key t2 H2) as [Hkey2 Hlegs2].
  rewrite Hk, Hkey2 in Hkey1. injection Hkey1 as Hs Hi Hc.
  rewrite Hc, Hlegs1 in Hlegs2.
  destruct t1, t2; simpl in *; congruence.
Qed.

Lemma key_injective_witness :
  let t1 := new_contractTradeableObject "stratA" "EDOLLAR" (CidStr "201903") in
  let t2 := mkTradeable "stratA" "EDOLLAR" ["201903"] in
  t1 = t2.
Proof.
  apply (key_injective
           (new_contractTradeableObject "stratA" "EDOLLAR" (CidStr "201903"))
           (mkTradeable "stratA" "EDOLLAR" ["201903"])).
  - repeat split; try discriminate. repeat constructor.
  - repeat split; try discriminate. repeat constructor.
  - reflexivity.
Defined.

(** ** The constructor of contractOrder *)

(** X3: the constructor raises in two cases only: the plain Exception when
    it is given neither two nor four positional arguments, and ValueError
    when the key does not hold two slashes. No int, finite float or list
    trade, no fill and no keyword makes it raise. *)
Theorem init_raises_iff (now : Z) (args : order_args) (kw : order_kwargs)
    (e : pyexn) :
  ContractOrder.__init__ now args kw = Raise e
  <-> (args = ArgsOther /\ e = RaisedException)
      \/ (exists k trade,
            args = ArgsKey k trade
            /\ PyStr.count slash k <> 2%nat /\ e = ValueError).
Proof.
  unfold ContractOrder.__init__. destruct args as [k trade | s i cid trade |].
  - cbn [ContractOrder._resolve_args].
    destruct (Nat.eq_dec (PyStr.count slash k) 2%nat) as [H2 | H2].
    + destruct (from_key_two_slashes k H2) as (a & b & c & _ & Hok).
      rewrite Hok. split; [discriminate|].
      intros [[Ha _] | (k' & t' & Hk & Hc & _)]; [discriminate|].
      injection Hk as <- <-. contradiction.
    + rewrite (from_key_other_slashes k H2). split.
      * intros He. injection He as <-. right. eauto.
      * intros [[Ha _] | (k' & t' & Hk & _ & ->)]; [discriminate | reflexivity].
  - cbn [ContractOrder._resolve_args]. split; [discriminate|].
    intros [[Ha _] | (k' & t' & Hk & _)]; discriminate.
  - cbn [ContractOrder._resolve_args]. split.
    + intros He. injection He as <-. left. split; reflexivity.
    + intros [[_ ->] | (k' & t' & Hk & _)]; [reflexivity | discriminate].
Qed.

(** X4: the two call forms of the docstring build the same order: the key
    "strategy/instrument/leg_leg" and the three names with the list of legs,
    for names and legs that hold no separator. *)
Theorem init_key_form_same_as_names_form (now : Z)
    (t : contractTradeableObject) (trade : trade_arg) (kw : order_kwargs) :
  separator_free t ->
  ContractOrder.__init__ now (ArgsKey (key t) trade) kw
  = ContractOrder.__init__ now
      (ArgsNames (strategy_name t) (instrument_code t)
         (CidList (contract_id t)) trade) kw.
Proof.
  intros Hsf. destruct (split_key t Hsf) as [Hkey Hlegs].
  unfold ContractOrder.__init__, ContractOrder._resolve_args, from_key.
  rewrite Hkey. unfold new_contractTradeableObject. rewrite Hlegs.
  reflexivity.
Qed.

Lemma init_key_form_same_as_names_form_witness :
  ContractOrder.__init__ 0
    (ArgsKey "a strategy/an instrument/201003_201406" (TradeList [6; -6]))
    default_kwargs
  = ContractOrder.__init__ 0
      (ArgsNames "a strategy" "an instrument"
         (CidList ["201003"; "201406"]) (TradeList [6; -6]))
      default_kwargs.
Proof.
  apply (init_key_form_same_as_names_form 0
           (mkTradeable "a strategy" "an instrument" ["201003"; "201406"])
           (TradeList [6; -6]) default_kwargs).
  repeat split; try discriminate. repeat constructor.
Defined.

(** X5: the property [generated_datetime] reads the key
    "reference_datetime", which the constructor never puts in [_order_info]
    (it stores the datetime under "generated_datetime"): on every order the
    property raises KeyError, while the other properties find their entry. *)
Theorem generated_datetime_raises_key_error (o : contractOrder) :
  ContractOrder.get_generated_datetime o = ContractOrder.KeyError
  /\ ContractOrder.order_info_getitem o "generated_datetime"
     = ContractOrder.Item
         (ContractOrder.VDatetime (generated_datetime (_order_info o)))
  /\ ContractOrder.get_algo_to_use o
     = ContractOrder.Item (ContractOrder.VStr (algo_to_use (_order_info o)))
  /\ ContractOrder.get_manual_fill o
     = ContractOrder.Item (ContractOrder.VBool (manual_fill (_order_info o))).
Proof.
  unfold ContractOrder.get_generated_datetime, ContractOrder.get_algo_to_use,
         ContractOrder.get_manual_fill, ContractOrder.order_info_getitem,
         ContractOrder.order_info_dict.
  repeat split.
Qed.

(** ** alt_key there and back *)

Lemma substring_prefix (c d : string) :
  String.substring 0 (String.length c) (String.append c d) = c.
Proof.
  induction c as [|a c' IH]; simpl.
  - destruct d; reflexivity.
  - now rewrite IH.
Qed.

(** X6: for one leg of six characters, [alt_key] gives the key of the same
    object with "00" appended to the leg, and [alt_key] of that object gives
    the first key back. *)
Theorem alt_key_six_eight_round_trip (strategy instrument c : string) :
  String.length c = 6%nat ->
  let six := new_contractTradeableObject strategy instrument (CidStr c) in
  let eight :=
    new_contractTradeableObject strategy instrument
      (CidStr (String.append c "00")) in
  alt_key six = Ok (key eight) /\ alt_key eight = Ok (key six).
Proof.
  intros Hc six eight. subst six eight. split.
  - now apply alt_key_six_digits.
  - rewrite alt_key_eight_digits.
    + rewrite <- Hc at 1. rewrite substring_prefix. reflexivity.
    + rewrite length_append, Hc. reflexivity.
Qed.

Lemma alt_key_six_eight_round_trip_witness :
  alt_key (new_contractTradeableObject "stratA" "EDOLLAR" (CidStr "201903"))
  = Ok "stratA/EDOLLAR/20190300"
  /\ alt_key (new_contractTradeableObject "stratA" "EDOLLAR"
               (CidStr "20190300"))
     = Ok "stratA/EDOLLAR/201903".
Proof.
  apply (alt_key_six_eight_round_trip "stratA" "EDOLLAR" "201903").
  reflexivity.
Defined.

(** ** The comparisons of trade and fill *)

Lemma all_zip_eqb_take (xs ys : list Z) :
  ContractOrder.all_zip Z.eqb xs ys = true
  <-> take (Nat.min (length xs) (length ys)) xs
      = take (Nat.min (length xs) (length ys)) ys.
Proof.
  revert ys. induction xs as [|x xs IH]; intros [|y ys]; simpl;
    try (split; reflexivity).
  unfold ContractOrder.all_zip in *. simpl.
  rewrite andb_true_iff, Z.eqb_eq, IH. split.
  - intros [-> ->]. reflexivity.
  - intros H. injection H as -> H. split; [reflexivity | exact H].
Qed.

Lemma all_zip_eqb_same_length (xs ys : list Z) :
  length xs = length ys ->
  (ContractOrder.all_zip Z.eqb xs ys = true <-> xs = ys).
Proof.
  intros Hlen. rewrite all_zip_eqb_take, <- Hlen, Nat.min_id.
  rewrite firstn_all. rewrite Hlen, firstn_all. reflexivity.
Qed.

Lemma all_zip_eqb_sym (xs ys : list Z) :
  ContractOrder.all_zip Z.eqb xs ys = ContractOrder.all_zip Z.eqb ys xs.
Proof.
  revert ys. induction xs as [|x xs IH]; intros [|y ys]; try reflexivity.
  unfold ContractOrder.all_zip in *. simpl. now rewrite IH, Z.eqb_sym.
Qed.

Lemma any_zip_ltb_negb_leb (q f : list Z) :
  ContractOrder.any_zip Z.ltb q f = negb (ContractOrder.all_zip Z.leb f q).
Proof.
  revert f. induction q as [|x q IH]; intros [|y f]; try reflexivity.
  unfold ContractOrder.any_zip, ContractOrder.all_zip in *. simpl.
  rewrite IH, negb_andb, Z.leb_antisym, negb_involutive. reflexivity.
Qed.

Lemma all_zip_eqb_zeros (xs : list Z) :
  ContractOrder.all_zip Z.eqb xs (repeat 0 (length xs))
  = forallb (fun x => Z.eqb x 0) xs.
Proof.
  induction xs as [|x xs IH]; [reflexivity|].
  unfold ContractOrder.all_zip in *. simpl. now rewrite IH.
Qed.

Lemma all_zip_leb_zeros (xs : list Z) :
  ContractOrder.all_zip Z.leb (repeat 0 (length xs)) xs
  = forallb (Z.leb 0) xs.
Proof.
  induction xs as [|x xs IH]; [reflexivity|].
  unfold ContractOrder.all_zip in *. simpl. now rewrite IH.
Qed.

Lemma forallb_zeros (n : nat) :
  forallb (fun x => Z.eqb x 0) (repeat 0 n) = true.
Proof. induction n as [|n IH]; [reflexivity | exact IH]. Qed.

(** X7: [same_trade_size] compares the two trade vectors up to the length of
    the shorter one: it is symmetric, and true exactly when the vectors
    agree on their common length, so a vector is the same size as each of
    its extensions. *)
Theorem same_trade_size_common_prefix (a b : contractOrder) :
  ContractOrder.same_trade_size a b = ContractOrder.same_trade_size b a
  /\ (ContractOrder.same_trade_size a b = true
      <-> let n := Nat.min (length (ContractOrder.trade a))
                           (length (ContractOrder.trade b)) in
          take n (ContractOrder.trade a) = take n (ContractOrder.trade b)).
Proof.
  unfold ContractOrder.same_trade_size. split.
  - apply all_zip_eqb_sym.
  - apply all_zip_eqb_take.
Qed.

(** X8: on an order whose fill has as many entries as its trade,
    [fill_equals_desired_trade] holds exactly when the two vectors are
    equal. *)
Theorem fill_equals_desired_trade_iff (o : contractOrder) :
  length (ContractOrder.fill o) = length (ContractOrder.trade o) ->
  (ContractOrder.fill_equals_desired_trade o = true
   <-> ContractOrder.fill o = ContractOrder.trade o).
Proof.
  intros Hlen. unfold ContractOrder.fill_equals_desired_trade.
  rewrite all_zip_eqb_same_length by (symmetry; exact Hlen).
  split; intros H; symmetry; exact H.
Qed.

Lemma fill_equals_desired_trade_iff_witness :
  ContractOrder.fill_equals_desired_trade Fixtures.edollar_spread = true
  <-> ContractOrder.fill Fixtures.edollar_spread
      = ContractOrder.trade Fixtures.edollar_spread.
Proof.
  apply (fill_equals_desired_trade_iff Fixtures.edollar_spread). reflexivity.
Defined.

(** X9: a proposed quantity is less than the fill on some leg exactly when
    the fill is not within it on every leg; for the order's own trade,
    [new_qty_less_than_fill(trade)] is the negation of
    [fill_less_than_or_equal_to_desired_trade(fill)]. *)
Theorem new_qty_less_than_fill_negates_within (o : contractOrder)
    (new_qty : list Z) :
  ContractOrder.new_qty_less_than_fill o new_qty
  = negb (ContractOrder.all_zip Z.leb (ContractOrder.fill o) new_qty)
  /\ ContractOrder.new_qty_less_than_fill o (ContractOrder.trade o)
     = negb (ContractOrder.fill_less_than_or_equal_to_desired_trade o
               (ContractOrder.fill o)).
Proof.
  unfold ContractOrder.new_qty_less_than_fill,
         ContractOrder.fill_less_than_or_equal_to_desired_trade.
  split; apply any_zip_ltb_negb_leb.
Qed.

(** X10: an order constructed without a fill starts with the zero fill:
    [fill_equals_zero] holds, and [fill_equals_desired_trade] holds exactly
    when the trade itself is zero on every leg. *)
Theorem new_order_fill_is_zero (c : ContractOrder.construction)
    (o : contractOrder) :
  ContractOrder.construct c = Ok o ->
  ContractOrder.supplied_fill c = None ->
  ContractOrder.fill_equals_zero o = true
  /\ ContractOrder.fill_equals_desired_trade o = ContractOrder.is_zero_trade o.
Proof.
  intros Hc Hnone. destruct (construct_stores c o Hc) as [Hfill _].
  rewrite Hnone in Hfill.
  unfold ContractOrder.fill_equals_zero,
         ContractOrder.fill_equals_desired_trade, ContractOrder.is_zero_trade.
  rewrite Hfill. split; [apply forallb_zeros | apply all_zip_eqb_zeros].
Qed.

Lemma new_order_fill_is_zero_witness :
  exists o,
    ContractOrder.construct
      (ContractOrder.ByInit 0
         (ArgsKey "stratA/EDOLLAR/201903_201906" (TradeList [6; -6]))
         default_kwargs) = Ok o
    /\ ContractOrder.fill_equals_zero o = true
    /\ ContractOrder.fill_equals_desired_trade o
       = ContractOrder.is_zero_trade o.
Proof.
  eexists. split; [reflexivity|].
  apply (new_order_fill_is_zero
           (ContractOrder.ByInit 0
              (ArgsKey "stratA/EDOLLAR/201903_201906" (TradeList [6; -6]))
              default_kwargs)).
  - reflexivity.
  - reflexivity.
Defined.

(** X11: on an order constructed without a fill,
    [fill_less_than_or_equal_to_desired_trade] accepts the order's own zero
    fill exactly when no leg of the trade is negative: with a sell leg the
    comparison 0 <= trade fails. *)
Theorem new_order_zero_fill_within_trade (c : ContractOrder.construction)
    (o : contractOrder) :
  ContractOrder.construct c = Ok o ->
  ContractOrder.supplied_fill c = None ->
  ContractOrder.fill_less_than_or_equal_to_desired_trade o
    (ContractOrder.fill o)
  = forallb (Z.leb 0) (ContractOrder.trade o).
Proof.
  intros Hc Hnone. destruct (construct_stores c o Hc) as [Hfill _].
  rewrite Hnone in Hfill.
  unfold ContractOrder.fill_less_than_or_equal_to_desired_trade.
  rewrite Hfill. apply all_zip_leb_zeros.
Qed.

Lemma new_order_zero_fill_within_trade_witness :
  exists o,
    ContractOrder.construct
      (ContractOrder.ByInit 0
         (ArgsKey "stratA/EDOLLAR/201903_201906" (TradeList [6; -6]))
         default_kwargs) = Ok o
    /\ ContractOrder.fill_less_than_or_equal_to_desired_trade o
         (ContractOrder.fill o)
       = forallb (Z.leb 0) (ContractOrder.trade o)
    /\ forallb (Z.leb 0) (ContractOrder.trade o) = false.
Proof.
  eexists. split; [reflexivity|]. split; [|reflexivity].
  apply (new_order_zero_fill_within_trade
           (ContractOrder.ByInit 0
              (ArgsKey "stratA/EDOLLAR/201903_201906" (TradeList [6; -6]))
              default_kwargs)).
  - reflexivity.
  - reflexivity.
Defined.

(** ** Control by an algo, on the order *)

Lemma order_release_after_add (o : contractOrder) (ref : option string) :
  ContractOrder.is_order_controlled_by_algo o = false ->
  snd (ContractOrder.release_order_from_algo_control
         (snd (ContractOrder.add_controlling_algo_ref ref o))) = o.
Proof.
  unfold ContractOrder.add_controlling_algo_ref. intros Hfree. rewrite Hfree.
  unfold ContractOrder.is_order_controlled_by_algo in Hfree.
  destruct o as [t tr fl fd fp lk oid ms mq pa ch ac info].
  destruct info as [a rp lp mt mf ro cs isp gd rc]. simpl in *.
  destruct rc; [discriminate | reflexivity].
Qed.

(** X12: on an order no algo controls, [add_controlling_algo_ref] returns
    success and stores the reference it is given; a release then gives back
    the order as it was, so the call changed nothing but the reference. *)
Theorem order_add_then_release (o : contractOrder) (ref : option string) :
  ContractOrder.is_order_controlled_by_algo o = false ->
  let added := ContractOrder.add_controlling_algo_ref ref o in
  fst added = Ok success
  /\ ContractOrder.get_reference_of_controlling_algo (snd added) = ref
  /\ snd (ContractOrder.release_order_from_algo_control (snd added)) = o.
Proof.
  intros Hfree added. subst added. split; [|split].
  - unfold ContractOrder.add_controlling_algo_ref. now rewrite Hfree.
  - unfold ContractOrder.add_controlling_algo_ref. now rewrite Hfree.
  - now apply order_release_after_add.
Qed.

Lemma order_add_then_release_witness :
  let added :=
    ContractOrder.add_controlling_algo_ref (Some "algoA")
      Fixtures.edollar_march in
  fst added = Ok success
  /\ ContractOrder.get_reference_of_controlling_algo (snd added)
     = Some "algoA"
  /\ snd (ContractOrder.release_order_from_algo_control (snd added))
     = Fixtures.edollar_march.
Proof.
  apply (order_add_then_release Fixtures.edollar_march (Some "algoA")).
  reflexivity.
Defined.

(** ** Control by an algo, on the stack *)

Lemma change_run_unchecked (st : StackState) (order_id : Z)
    (old new : contractOrder) :
  _stack st !! order_id = Some old ->
  ContractOrderStack._change_order_on_stack order_id new false st
  = (Ok success,
     mkStack (<[order_id := new]> (_stack st)) (next_order_id st)
       (insert_refused st) (calls st ++ [CallChange order_id new])%list).
Proof.
  intros Hget. unfold ContractOrderStack._change_order_on_stack.
  cbn [ContractOrderStack.log_call _stack]. rewrite Hget. reflexivity.
Qed.

Lemma stack_add_run (st : StackState) (order_id : Z) (o : contractOrder)
    (ref : string) :
  _stack st !! order_id = Some o ->
  ContractOrder.is_order_controlled_by_algo o = false ->
  ContractOrderStack.add_controlling_algo_ref order_id (Some ref) st
  = (Ok success,
     mkStack
       (<[order_id :=
            snd (ContractOrder.add_controlling_algo_ref (Some ref) o)]>
          (_stack st))
       (next_order_id st) (insert_refused st)
       (calls st
        ++ [CallGet order_id;
            CallChange order_id
              (snd (ContractOrder.add_controlling_algo_ref (Some ref) o))])%list).
Proof.
  intros Hget Hfree.
  unfold ContractOrderStack.add_controlling_algo_ref,
         ContractOrderStack.bind at 1.
  rewrite get_order_run, Hget. unfold ContractOrderStack.copy.
  destruct (ContractOrder.add_controlling_algo_ref (Some ref) o)
    as [r o'] eqn:Hadd.
  assert (Hr : r = Ok success).
  { unfold ContractOrder.add_controlling_algo_ref in Hadd.
    rewrite Hfree in Hadd. now injection Hadd as <- _. }
  subst r. unfold ContractOrderStack.bind.
  rewrite (change_run_unchecked _ order_id o o') by exact Hget.
  cbn [ContractOrderStack.log_call _stack next_order_id insert_refused calls
       snd ContractOrderStack.ret].
  now rewrite <- app_assoc.
Qed.

Lemma stack_release_run (st : StackState) (order_id : Z) (o : contractOrder) :
  _stack st !! order_id = Some o ->
  ContractOrder.is_order_controlled_by_algo o = true ->
  ContractOrderStack.release_order_from_algo_control order_id st
  = (Ok success,
     mkStack
       (<[order_id := snd (ContractOrder.release_order_from_algo_control o)]>
          (_stack st))
       (next_order_id st) (insert_refused st)
       (calls st
        ++ [CallGet order_id;
            CallChange order_id
              (snd (ContractOrder.release_order_from_algo_control o))])%list).
Proof.
  intros Hget Hctl.
  unfold ContractOrderStack.release_order_from_algo_control,
         ContractOrderStack.bind at 1.
  rewrite get_order_run, Hget, Hctl. cbn [negb].
  unfold ContractOrderStack.copy.
  cbn [ContractOrder.release_order_from_algo_control].
  unfold ContractOrderStack.bind.
  rewrite (change_run_unchecked _ order_id o) by exact Hget.
  cbn [ContractOrderStack.log_call _stack next_order_id insert_refused calls
       snd ContractOrderStack.ret].
  now rewrite <- app_assoc.
Qed.

Lemma stack_add_raises_on_controlled (st : StackState) (order_id : Z)
    (o : contractOrder) (ref : string) :
  _stack st !! order_id = Some o ->
  ContractOrder.is_order_controlled_by_algo o = true ->
  ContractOrderStack.add_controlling_algo_ref order_id (Some ref) st
  = (Raise RaisedException,
     ContractOrderStack.log_call (CallGet order_id) st).
Proof.
  intros Hget Hctl.
  unfold ContractOrderStack.add_controlling_algo_ref,
         ContractOrderStack.bind.
  rewrite get_order_run, Hget. unfold ContractOrderStack.copy.
  unfold ContractOrder.add_controlling_algo_ref. now rewrite Hctl.
Qed.

Lemma order_add_controls (o : contractOrder) (ref : string) :
  ContractOrder.is_order_controlled_by_algo o = false ->
  ContractOrder.is_order_controlled_by_algo
    (snd (ContractOrder.add_controlling_algo_ref (Some ref) o)) = true
  /\ ContractOrder.get_reference_of_controlling_algo
       (snd (ContractOrder.add_controlling_algo_ref (Some ref) o))
     = Some ref.
Proof.
  intros Hfree. unfold ContractOrder.add_controlling_algo_ref.
  rewrite Hfree. split; reflexivity.
Qed.

(** X13: on the id of a stored order that no algo controls, the stack's
    [add_controlling_algo_ref] with a reference reads the order, writes it
    back with the reference set and nothing else changed, and returns
    success; this holds whatever the lock and modification status of the
    order, the write being made with the modification check off. *)
Theorem stack_add_controlling_algo_ref_succeeds (st : StackState)
    (order_id : Z) (o : contractOrder) (ref : string) :
  _stack st !! order_id = Some o ->
  ContractOrder.is_order_controlled_by_algo o = false ->
  exists st' o',
    ContractOrderStack.add_controlling_algo_ref order_id (Some ref) st
    = (Ok success, st')
    /\ _stack st' = <[order_id := o']> (_stack st)
    /\ ContractOrder.get_reference_of_controlling_algo o' = Some ref
    /\ snd (ContractOrder.release_order_from_algo_control o') = o
    /\ next_order_id st' = next_order_id st
    /\ calls st'
       = (calls st ++ [CallGet order_id; CallChange order_id o'])%list.
Proof.
  intros Hget Hfree. eexists _, _. split.
  - exact (stack_add_run st order_id o ref Hget Hfree).
  - cbn [_stack next_order_id calls]. repeat split.
    + exact (proj2 (order_add_controls o ref Hfree)).
    + exact (order_release_after_add o (Some ref) Hfree).
Qed.

Lemma stack_add_controlling_algo_ref_succeeds_witness :
  let st := Fixtures.stack_with Fixtures.bund_uncontrolled in
  exists st' o',
    ContractOrderStack.add_controlling_algo_ref 1 (Some "algoA") st
    = (Ok success, st')
    /\ _stack st' = <[1 := o']> (_stack st)
    /\ ContractOrder.get_reference_of_controlling_algo o' = Some "algoA"
    /\ snd (ContractOrder.release_order_from_algo_control o')
       = Fixtures.bund_uncontrolled
    /\ next_order_id st' = next_order_id st
    /\ calls st' = (calls st ++ [CallGet 1; CallChange 1 o'])%list.
Proof.
  apply (stack_add_controlling_algo_ref_succeeds
           (Fixtures.stack_with Fixtures.bund_uncontrolled) 1
           Fixtures.bund_uncontrolled "algoA").
  - reflexivity.
  - reflexivity.
Defined.

(** X14: on an id that is not on the stack, [add_controlling_algo_ref], with
    a reference or with None, and [release_order_from_algo_control] raise
    after the one read, and the stack is left as it was. *)
Theorem control_of_missing_order_raises (st : StackState) (order_id : Z)
    (control_algo_ref : option string) :
  _stack st !! order_id = None ->
  ContractOrderStack.add_controlling_algo_ref order_id control_algo_ref st
  = (Raise RaisedException, ContractOrderStack.log_call (CallGet order_id) st)
  /\ ContractOrderStack.release_order_from_algo_control order_id st
     = (Raise RaisedException,
        ContractOrderStack.log_call (CallGet order_id) st)
  /\ _stack (ContractOrderStack.log_call (CallGet order_id) st) = _stack st.
Proof.
  intros Hnone.
  assert (Hrel :
    ContractOrderStack.release_order_from_algo_control order_id st
    = (Raise RaisedException,
       ContractOrderStack.log_call (CallGet order_id) st)).
  { unfold ContractOrderStack.release_order_from_algo_control,
           ContractOrderStack.bind.
    rewrite get_order_run, Hnone. reflexivity. }
  repeat split; [|exact Hrel].
  destruct control_algo_ref as [ref|]; [|exact Hrel].
  unfold ContractOrderStack.add_controlling_algo_ref,
         ContractOrderStack.bind.
  rewrite get_order_run, Hnone. reflexivity.
Qed.

Lemma control_of_missing_order_raises_witness :
  let st := Fixtures.stack_with Fixtures.bund_uncontrolled in
  ContractOrderStack.add_controlling_algo_ref 7 (Some "algoA") st
  = (Raise RaisedException, ContractOrderStack.log_call (CallGet 7) st)
  /\ ContractOrderStack.release_order_from_algo_control 7 st
     = (Raise RaisedException, ContractOrderStack.log_call (CallGet 7) st)
  /\ _stack (ContractOrderStack.log_call (CallGet 7) st) = _stack st.
Proof.
  apply (control_of_missing_order_raises
           (Fixtures.stack_with Fixtures.bund_uncontrolled) 7 (Some "algoA")).
  reflexivity.
Defined.

(** X15: taking control of a stored, uncontrolled order and releasing it
    again leaves the stack with exactly the orders it held before. *)
Theorem stack_add_then_release_restores (st : StackState) (order_id : Z)
    (o : contractOrder) (ref : string) :
  _stack st !! order_id = Some o ->
  ContractOrder.is_order_controlled_by_algo o = false ->
  let added :=
    ContractOrderStack.add_controlling_algo_ref order_id (Some ref) st in
  let released :=
    ContractOrderStack.release_order_from_algo_control order_id (snd added) in
  fst added = Ok success
  /\ fst released = Ok success
  /\ _stack (snd released) = _stack st.
Proof.
  intros Hget Hfree added released. subst released added.
  rewrite (stack_add_run st order_id o ref Hget Hfree). cbn [fst snd].
  destruct (order_add_controls o ref Hfree) as [Hctl _].
  erewrite stack_release_run;
    [| cbn [_stack]; apply lookup_insert_eq | exact Hctl].
  cbn [fst snd _stack]. repeat split.
  rewrite insert_insert_eq, (order_release_after_add o (Some ref) Hfree).
  now apply insert_id.
Qed.

Lemma stack_add_then_release_restores_witness :
  let st := Fixtures.stack_with Fixtures.bund_uncontrolled in
  let added := ContractOrderStack.add_controlling_algo_ref 1 (Some "algoA") st in
  let released :=
    ContractOrderStack.release_order_from_algo_control 1 (snd added) in
  fst added = Ok success
  /\ fst released = Ok success
  /\ _stack (snd released) = _stack st.
Proof.
  apply (stack_add_then_release_restores
           (Fixtures.stack_with Fixtures.bund_uncontrolled) 1
           Fixtures.bund_uncontrolled "algoA").
  - reflexivity.
  - reflexivity.
Defined.

(** X16: once an algo has taken control of a stored order, a second
    [add_controlling_algo_ref] with any reference raises, and the order
    stays on the stack under the first reference. *)
Theorem stack_second_control_refused (st : StackState) (order_id : Z)
    (o : contractOrder) (first second : string) :
  _stack st !! order_id = Some o ->
  ContractOrder.is_order_controlled_by_algo o = false ->
  let st1 :=
    snd (ContractOrderStack.add_controlling_algo_ref order_id (Some first) st) in
  let again :=
    ContractOrderStack.add_controlling_algo_ref order_id (Some second) st1 in
  fst again = Raise RaisedException
  /\ _stack (snd again) = _stack st1
  /\ exists o1,
       _stack (snd again) !! order_id = Some o1
       /\ ContractOrder.get_reference_of_controlling_algo o1 = Some first.
Proof.
  intros Hget Hfree st1 again. subst again st1.
  rewrite (stack_add_run st order_id o first Hget Hfree). cbn [snd].
  destruct (order_add_controls o first Hfree) as [Hctl Href].
  erewrite stack_add_raises_on_controlled;
    [| cbn [_stack]; apply lookup_insert_eq | exact Hctl].
  cbn [fst snd ContractOrderStack.log_call _stack]. repeat split.
  eexists. split; [apply lookup_insert_eq | exact Href].
Qed.

Lemma stack_second_control_refused_witness :
  let st := Fixtures.stack_with Fixtures.bund_uncontrolled in
  let st1 :=
    snd (ContractOrderStack.add_controlling_algo_ref 1 (Some "algoA") st) in
  let again :=
    ContractOrderStack.add_controlling_algo_ref 1 (Some "algoB") st1 in
  fst again = Raise RaisedException
  /\ _stack (snd again) = _stack st1
  /\ exists o1,
       _stack (snd again) !! 1 = Some o1
       /\ ContractOrder.get_reference_of_controlling_algo o1 = Some "algoA".
Proof.
  apply (stack_second_control_refused
           (Fixtures.stack_with Fixtures.bund_uncontrolled) 1
           Fixtures.bund_uncontrolled "algoA" "algoB").
  - reflexivity.
  - reflexivity.
Defined.

(** X17: releasing a stored order that an algo controls reads it, writes it
    back with the reference cleared, and returns success; the other orders
    and the id counter are untouched. *)
Theorem stack_release_controlled_clears (st : StackState) (order_id : Z)
    (o : contractOrder) :
  _stack st !! order_id = Some o ->
  ContractOrder.is_order_controlled_by_algo o = true ->
  exists st' o',
    ContractOrderStack.release_order_from_algo_control order_id st
    = (Ok success, st')
    /\ o' = snd (ContractOrder.release_order_from_algo_control o)
    /\ ContractOrder.get_reference_of_controlling_algo o' = None
    /\ _stack st' = <[order_id := o']> (_stack st)
    /\ next_order_id st' = next_order_id st
    /\ calls st'
       = (calls st ++ [CallGet order_id; CallChange order_id o'])%list.
Proof.
  intros Hget Hctl. eexists _, _. split.
  - exact (stack_release_run st order_id o Hget Hctl).
  - repeat split.
Qed.

Lemma stack_release_controlled_clears_witness :
  let st := Fixtures.stack_with Fixtures.bund_controlled in
  exists st' o',
    ContractOrderStack.release_order_from_algo_control 1 st = (Ok success, st')
    /\ o' = snd (ContractOrder.release_order_from_algo_control
                   Fixtures.bund_controlled)
    /\ ContractOrder.get_reference_of_controlling_algo o' = None
    /\ _stack st' = <[1 := o']> (_stack st)
    /\ next_order_id st' = next_order_id st
    /\ calls st' = (calls st ++ [CallGet 1; CallChange 1 o'])%list.
Proof.
  apply (stack_release_controlled_clears
           (Fixtures.stack_with Fixtures.bund_controlled) 1
           Fixtures.bund_controlled).
  - reflexivity.
  - reflexivity.
Defined.

(** ** Unlocking and rolling back lists of ids *)

Lemma unlock_step (i : Z) (st : StackState) :
  exists r st1,
    ContractOrderStack._unlock_order_on_stack i st = (Ok r, st1)
    /\ calls st1 = (calls st ++ [CallUnlock i])%list
    /\ next_order_id st1 = next_order_id st
    /\ _stack st1 !! i = ContractOrder.with_locked false <$> (_stack st !! i)
    /\ (forall j, j <> i -> _stack st1 !! j = _stack st !! j).
Proof.
  unfold ContractOrderStack._unlock_order_on_stack.
  cbn [ContractOrderStack.log_call _stack].
  destruct (_stack st !! i) as [o|] eqn:Hi; eexists _, _;
    (split; [reflexivity|]); cbn [_stack calls next_order_id
      ContractOrderStack.with_stack]; repeat split.
  - now rewrite lookup_insert_eq.
  - intros j Hj. now apply lookup_insert_ne.
  - exact Hi.
Qed.

Lemma with_locked_false_twice (x : option contractOrder) :
  ContractOrder.with_locked false <$> (ContractOrder.with_locked false <$> x)
  = ContractOrder.with_locked false <$> x.
Proof. destruct x; reflexivity. Qed.

Lemma unlock_loop_spec (ids : list Z) :
  forall st : StackState,
  exists st',
    ContractOrderStack.unlock_loop ids st = (Ok tt, st')
    /\ calls st' = (calls st ++ map CallUnlock ids)%list
    /\ next_order_id st' = next_order_id st
    /\ (forall j, j ∈ ids ->
          _stack st' !! j = ContractOrder.with_locked false <$> (_stack st !! j))
    /\ (forall j, j ∉ ids -> _stack st' !! j = _stack st !! j).
Proof.
  induction ids as [|i rest IH]; intros st.
  - exists st. simpl. rewrite app_nil_r. repeat split.
    intros j Hj. now apply elem_of_nil in Hj.
  - cbn [ContractOrderStack.unlock_loop].
    unfold ContractOrderStack.bind at 1.
    destruct (unlock_step i st) as (r & st1 & Hu & Hc1 & Hn1 & Hi1 & Ho1).
    rewrite Hu.
    destruct (IH st1) as (st' & Hrun & Hcalls & Hnext & Hin & Hout).
    exists st'. repeat split.
    + exact Hrun.
    + rewrite Hcalls, Hc1, <- app_assoc. reflexivity.
    + congruence.
    + intros j Hj. destruct (decide (j ∈ rest)) as [Hr | Hr].
      * rewrite (Hin j Hr). destruct (decide (j = i)) as [-> | Hne].
        -- rewrite Hi1. apply with_locked_false_twice.
        -- now rewrite (Ho1 j Hne).
      * apply elem_of_cons in Hj as [-> | Hj]; [|contradiction].
        now rewrite (Hout i Hr).
    + intros j Hj. apply not_elem_of_cons in Hj as [Hji Hjr].
      rewrite (Hout j Hjr). now apply Ho1.
Qed.

(** X18: [unlock_list_of_orders] returns success for every list of ids,
    calling the unlock once per id in list order. Each listed order that is
    on the stack ends up unlocked and otherwise as it was, a listed id that
    is not on the stack is passed over, and no other order is touched. *)
Theorem unlock_list_of_orders_effect (ids : list Z) (st : StackState) :
  exists st',
    ContractOrderStack.unlock_list_of_orders ids st = (Ok success, st')
    /\ calls st' = (calls st ++ map CallUnlock ids)%list
    /\ next_order_id st' = next_order_id st
    /\ (forall j, j ∈ ids ->
          _stack st' !! j = ContractOrder.with_locked false <$> (_stack st !! j))
    /\ (forall j, j ∉ ids -> _stack st' !! j = _stack st !! j).
Proof.
  destruct (unlock_loop_spec ids st) as (st' & Hrun & Hrest).
  exists st'. split; [|exact Hrest].
  unfold ContractOrderStack.unlock_list_of_orders, ContractOrderStack.bind.
  now rewrite Hrun.
Qed.

(** X19: [rollback_list_of_orders_on_stack] returns success for every list
    of ids, whether or not they are on the stack, locked or active: it makes
    the unlock, deactivate and remove calls for each id in turn, after which
    none of the listed ids is on the stack and every other order is as it
    was. *)
Theorem rollback_list_effect (ids : list Z) (st : StackState) :
  exists st',
    ContractOrderStack.rollback_list_of_orders_on_stack ids st
    = (Ok success, st')
    /\ calls st' = (calls st ++ ContractOrderStack.rollback_calls ids)%list
    /\ next_order_id st' = next_order_id st
    /\ (forall j, j ∈ ids -> _stack st' !! j = None)
    /\ (forall j, j ∉ ids -> _stack st' !! j = _stack st !! j).
Proof.
  destruct (rollback_loop_run ids st) as (st' & Hrun & Hrest).
  exists st'. split; [|exact Hrest].
  unfold ContractOrderStack.rollback_list_of_orders_on_stack,
         ContractOrderStack.bind.
  now rewrite Hrun.
Qed.

(** ** A batch that goes through *)

(** When the loop ends with [success], the orders were stored, locked, under
    consecutive ids from the counter on. *)
Lemma put_loop_success (orders : list contractOrder) :
  forall (acc ids : list Z) (st st' : StackState),
    ContractOrderStack.put_loop orders acc st = (Ok (ids, success), st') ->
    ids = (acc ++ seqZ (next_order_id st) (Z.of_nat (length orders)))%list
    /\ next_order_id st' = next_order_id st + Z.of_nat (length orders)
    /\ (forall (k : nat) o,
          orders !! k = Some o ->
          _stack st' !! (next_order_id st + Z.of_nat k)
          = Some (ContractOrder.with_order_id
                    (Some (next_order_id st + Z.of_nat k))
                    (ContractOrder.with_locked true o)))
    /\ (forall j,
          ~ (next_order_id st <= j
             < next_order_id st + Z.of_nat (length orders)) ->
          _stack st' !! j = _stack st !! j).
Proof.
  induction orders as [|o rest IH]; intros acc ids st st' Hrun.
  - simpl in Hrun. injection Hrun as <- <-. simpl.
    rewrite app_nil_r, Z.add_0_r. repeat split.
    intros k o Hk. now rewrite lookup_nil in Hk.
  - cbn [ContractOrderStack.put_loop] in Hrun.
    unfold ContractOrderStack.bind in Hrun.
    destruct (put_order_cases (snd (ContractOrder.lock_order o)) st)
      as [[e He] | Hput].
    { rewrite He in Hrun. discriminate. }
    rewrite Hput in Hrun. set (n := next_order_id st) in *.
    apply IH in Hrun as (Hids & Hnext & Hin & Hout).
    cbn [next_order_id _stack] in Hids, Hnext, Hin, Hout.
    assert (Hlen : Z.of_nat (length (o :: rest))
                   = 1 + Z.of_nat (length rest)).
    { cbn [length]. lia. }
    rewrite Hlen. repeat split.
    + rewrite Hids, <- app_assoc. f_equal.
      rewrite (seqZ_cons n) by lia. cbn [app]. do 2 f_equal; lia.
    + lia.
    + intros [|k] ok Hk.
      * simpl in Hk. injection Hk as <-. rewrite Z.add_0_r.
        rewrite Hout by lia. apply lookup_insert_eq.
      * simpl in Hk. specialize (Hin k ok Hk).
        replace (n + Z.of_nat (S k)) with (n + 1 + Z.of_nat k) by lia.
        exact Hin.
    + intros j Hj. rewrite Hout by lia. apply lookup_insert_ne. lia.
Qed.

(** What [put_list_of_orders_on_stack] leaves when it returns ids. *)
Lemma put_list_success_state (orders : list contractOrder)
    (unlock_when_finished : bool) (st st' : StackState) (ids : list Z) :
  ContractOrderStack.put_list_of_orders_on_stack orders
    unlock_when_finished st = (Ok (inl ids), st') ->
  ids = seqZ (next_order_id st) (Z.of_nat (length orders))
  /\ next_order_id st' = next_order_id st + Z.of_nat (length orders)
  /\ (forall (k : nat) o,
        orders !! k = Some o ->
        _stack st' !! (next_order_id st + Z.of_nat k)
        = Some (ContractOrder.with_order_id
                  (Some (next_order_id st + Z.of_nat k))
                  (ContractOrder.with_locked (negb unlock_when_finished) o)))
  /\ (forall j,
        ~ (next_order_id st <= j
           < next_order_id st + Z.of_nat (length orders)) ->
        _stack st' !! j = _stack st !! j).
Proof.
  destruct orders as [|o rest].
  { intros H. injection H as <- <-. simpl. rewrite Z.add_0_r. repeat split.
    intros k o Hk. now rewrite lookup_nil in Hk. }
  unfold ContractOrderStack.put_list_of_orders_on_stack.
  cbn [length Nat.eqb]. unfold ContractOrderStack.bind at 1.
  destruct (ContractOrderStack.put_loop (o :: rest) [] st)
    as [[[ids0 status]|e] st1] eqn:Hloop; [|discriminate].
  cbn [fst snd].
  destruct (put_loop_outcome (o :: rest) [] st)
    as (new & st1' & _ & [(Hrun & _) | (pre & bad & post & e & _ & _ & Hrun & _)]);
    rewrite Hloop in Hrun; injection Hrun as -> -> ->.
  - apply put_loop_success in Hloop as (Hids & Hnext & Hin & Hout).
    cbn [app] in Hids. subst new.
    destruct unlock_when_finished.
    + unfold ContractOrderStack.unlock_list_of_orders,
             ContractOrderStack.bind.
      destruct (unlock_loop_spec
                  (seqZ (next_order_id st) (Z.of_nat (length (o :: rest))))
                  st1') as (st2 & Hun & _ & Hn2 & Hin2 & Hout2).
      rewrite Hun. cbn [ContractOrderStack.ret]. intros H.
      injection H as <- <-. repeat split.
      * rewrite Hn2, Hnext. reflexivity.
      * intros k ok Hk. rewrite Hin2.
        -- rewrite (Hin k ok Hk). reflexivity.
        -- apply elem_of_seqZ. apply lookup_lt_Some in Hk. lia.
      * intros j Hj. rewrite Hout2; [now apply Hout|].
        rewrite elem_of_seqZ. exact Hj.
    + unfold ContractOrderStack.bind, ContractOrderStack.ret. intros H.
      injection H as <- <-. repeat split; assumption.
  - unfold ContractOrderStack.rollback_list_of_orders_on_stack,
           ContractOrderStack.bind.
    destruct (rollback_loop_run new st1') as (st2 & Hrb & _).
    rewrite Hrb. discriminate.
Qed.

(** X20: when [put_list_of_orders_on_stack] returns ids, they are the
    consecutive ids from the counter on, pairwise distinct, one per order in
    input order; each order is stored under its id, carrying that id,
    unlocked when [unlock_when_finished] is set and locked otherwise; the
    counter has advanced by the number of orders and no other id was
    touched. *)
Theorem put_list_success_contents (orders : list contractOrder)
    (unlock_when_finished : bool) (st st' : StackState) (ids : list Z) :
  ContractOrderStack.put_list_of_orders_on_stack orders
    unlock_when_finished st = (Ok (inl ids), st') ->
  ids = seqZ (next_order_id st) (Z.of_nat (length orders))
  /\ length ids = length orders
  /\ NoDup ids
  /\ next_order_id st' = next_order_id st + Z.of_nat (length orders)
  /\ (forall (k : nat) o,
        orders !! k = Some o ->
        ids !! k = Some (next_order_id st + Z.of_nat k)
        /\ _stack st' !! (next_order_id st + Z.of_nat k)
           = Some (ContractOrder.with_order_id
                     (Some (next_order_id st + Z.of_nat k))
                     (ContractOrder.with_locked
                        (negb unlock_when_finished) o)))
  /\ (forall j, j ∉ ids -> _stack st' !! j = _stack st !! j).
Proof.
  intros Hput.
  apply put_list_success_state in Hput as (Hids & Hnext & Hin & Hout).
  subst ids. repeat split.
  - rewrite length_seqZ. lia.
  - apply NoDup_seqZ.
  - exact Hnext.
  - apply lookup_seqZ. split; [reflexivity|].
    apply lookup_lt_Some in H. lia.
  - now apply Hin.
  - intros j Hj. apply Hout. intros Hrange. apply Hj.
    now apply elem_of_seqZ.
Qed.

Lemma put_list_success_contents_witness :
  let st := Fixtures.stack_with Fixtures.bund_controlled in
  let orders := [Fixtures.edollar_march; Fixtures.edollar_june] in
  let run := ContractOrderStack.put_list_of_orders_on_stack orders true st in
  fst run = Ok (inl [2; 3])
  /\ ([2; 3] = seqZ 2 (Z.of_nat (length orders))
      /\ length [2; 3] = length orders
      /\ NoDup [2; 3]
      /\ next_order_id (snd run) = 2 + Z.of_nat (length orders)
      /\ (forall (k : nat) o,
            orders !! k = Some o ->
            [2; 3] !! k = Some (2 + Z.of_nat k)
            /\ _stack (snd run) !! (2 + Z.of_nat k)
               = Some (ContractOrder.with_order_id (Some (2 + Z.of_nat k))
                         (ContractOrder.with_locked false o)))
      /\ (forall j, j ∉ [2; 3] -> _stack (snd run) !! j = _stack st !! j)).
Proof.
  split; [vm_compute; reflexivity|].
  apply (put_list_success_contents
           [Fixtures.edollar_march; Fixtures.edollar_june] true
           (Fixtures.stack_with Fixtures.bund_controlled) _ [2; 3]).
  vm_compute. reflexivity.
Defined.

(** X21: on a stack whose ids lie below the counter, rolling back the ids
    that [put_list_of_orders_on_stack] returned removes exactly what the
    batch added: the stack holds the orders it held before the batch. *)
Theorem rollback_undoes_put_list (orders : list contractOrder)
    (unlock_when_finished : bool) (st st1 : StackState) (ids : list Z) :
  ContractOrderStack.stack_wf st ->
  ContractOrderStack.put_list_of_orders_on_stack orders
    unlock_when_finished st = (Ok (inl ids), st1) ->
  exists st2,
    ContractOrderStack.rollback_list_of_orders_on_stack ids st1
    = (Ok success, st2)
    /\ _stack st2 = _stack st.
Proof.
  intros Hwf Hput.
  apply put_list_success_state in Hput as (Hids & _ & _ & Hout).
  destruct (rollback_loop_run ids st1) as (st2 & Hrb & _ & _ & Hgone & Hkept).
  exists st2. split.
  - unfold ContractOrderStack.rollback_list_of_orders_on_stack,
           ContractOrderStack.bind.
    now rewrite Hrb.
  - apply map_eq. intros j. destruct (decide (j ∈ ids)) as [Hj | Hj].
    + rewrite (Hgone j Hj). symmetry.
      destruct (_stack st !! j) as [oj|] eqn:Hsj; [|reflexivity].
      exfalso. apply Hwf in Hsj. rewrite Hids in Hj.
      apply elem_of_seqZ in Hj. lia.
    + rewrite (Hkept j Hj). apply Hout. intros Hrange. apply Hj.
      rewrite Hids. now apply elem_of_seqZ.
Qed.

Lemma rollback_undoes_put_list_witness :
  let st := Fixtures.stack_with Fixtures.bund_controlled in
  let put :=
    ContractOrderStack.put_list_of_orders_on_stack
      [Fixtures.edollar_march; Fixtures.edollar_june] true st in
  fst put = Ok (inl [2; 3])
  /\ exists st2,
       ContractOrderStack.rollback_list_of_orders_on_stack [2; 3] (snd put)
       = (Ok success, st2)
       /\ _stack st2 = _stack st.
Proof.
  split; [vm_compute; reflexivity|].
  apply (rollback_undoes_put_list
           [Fixtures.edollar_march; Fixtures.edollar_june] true
           (Fixtures.stack_with Fixtures.bund_controlled)).
  - apply stack_with_wf.
  - vm_compute. reflexivity.
Defined.

(** X22: [put_list_of_orders_on_stack] never raises and never returns a
    part of the batch: its result is either one id per order or
    [failure]. *)
Theorem put_list_all_or_failure (orders : list contractOrder)
    (unlock_when_finished : bool) (st : StackState) :
  let run :=
    ContractOrderStack.put_list_of_orders_on_stack orders
      unlock_when_finished st in
  (exists ids, fst run = Ok (inl ids) /\ length ids = length orders)
  \/ fst run = Ok (inr failure).
Proof.
  destruct orders as [|o rest]; [left; exists []; split; reflexivity|].
  cbv zeta.
  destruct (put_loop_outcome (o :: rest) [] st)
    as (new & st1 & _ & [(Hrun & Hlen & _)
                        | (pre & bad & post & e & _ & _ & Hrun & _)]).
  - left. exists new. split; [|exact Hlen].
    unfold ContractOrderStack.put_list_of_orders_on_stack.
    cbn [length Nat.eqb]. unfold ContractOrderStack.bind at 1.
    rewrite Hrun. cbn [fst snd app].
    destruct unlock_when_finished.
    + unfold ContractOrderStack.unlock_list_of_orders,
             ContractOrderStack.bind.
      destruct (unlock_loop_spec new st1) as (st2 & Hun & _).
      now rewrite Hun.
    + reflexivity.
  - right.
    unfold ContractOrderStack.put_list_of_orders_on_stack.
    cbn [length Nat.eqb]. unfold ContractOrderStack.bind at 1.
    rewrite Hrun. cbn [fst snd app].
    unfold ContractOrderStack.rollback_list_of_orders_on_stack,
           ContractOrderStack.bind.
    destruct (rollback_loop_run new st1) as (st2 & Hrb & _).
    now rewrite Hrb.
Qed.

(** ** The id counter *)

Section KeepsCounter.
Import ContractOrderStack.

Lemma keeps_ret {A} (a : A) : keeps_counter (ret a).
Proof. intros st. unfold ret. cbn [snd]. split; [tauto | lia]. Qed.

Lemma keeps_raise {A} (e : pyexn) : keeps_counter (@raise A e).
Proof. intros st. unfold raise. cbn [snd]. split; [tauto | lia]. Qed.

Lemma keeps_bind {A B} (m : StackM A) (k : A -> StackM B) :
  keeps_counter m -> (forall a, keeps_counter (k a)) ->
  keeps_counter (bind m k).
Proof.
  intros Hm Hk st. unfold bind. specialize (Hm st).
  destruct (m st) as [[a|e] st1]; cbn [snd] in *.
  - specialize (Hk a st1). split; [tauto | lia].
  - exact Hm.
Qed.

Ltac keeps_by_cases :=
  cbn [snd next_order_id _stack log_call with_stack];
  split; [|lia];
  let Hwf := fresh "Hwf" in
  let Hi := fresh "Hi" in
  intros Hwf ? ? Hi;
  cbn [snd next_order_id _stack log_call with_stack] in *;
  first
    [ exact (Hwf _ _ Hi)
    | apply lookup_insert_Some in Hi as [[<- _] | [_ Hi]];
      [eapply Hwf; eassumption | exact (Hwf _ _ Hi)]
    | apply lookup_delete_Some in Hi as [_ Hi]; exact (Hwf _ _ Hi) ].

Lemma keeps_get (order_id : Z) :
  keeps_counter (get_order_with_id_from_stack order_id).
Proof. intros st. unfold get_order_with_id_from_stack. keeps_by_cases. Qed.

Lemma keeps_put (o : contractOrder) : keeps_counter (put_order_on_stack o).
Proof.
  intros st. destruct (put_order_cases o st) as [[e He] | Hput].
  - rewrite He. keeps_by_cases.
  - rewrite Hput. cbn [snd next_order_id]. split; [|lia].
    intros Hwf i oi Hi. cbn [_stack next_order_id] in *.
    apply lookup_insert_Some in Hi as [[<- _] | [_ Hi]]; [lia|].
    apply Hwf in Hi. lia.
Qed.

Lemma keeps_change (order_id : Z) (new_order : contractOrder) (check : bool) :
  keeps_counter (_change_order_on_stack order_id new_order check).
Proof.
  intros st. unfold _change_order_on_stack. cbn [log_call _stack].
  destruct (_stack st !! order_id) as [old|] eqn:Hold;
    [destruct (check && modification_in_flight old)|]; keeps_by_cases.
Qed.

Lemma keeps_unlock (order_id : Z) :
  keeps_counter (_unlock_order_on_stack order_id).
Proof.
  intros st. unfold _unlock_order_on_stack. cbn [log_call _stack].
  destruct (_stack st !! order_id) as [old|] eqn:Hold; keeps_by_cases.
Qed.

Lemma keeps_deactivate (order_id : Z) :
  keeps_counter (deactivate_order order_id).
Proof.
  intros st. unfold deactivate_order. cbn [log_call _stack].
  destruct (_stack st !! order_id) as [old|] eqn:Hold; keeps_by_cases.
Qed.

Lemma keeps_remove (order_id : Z) :
  keeps_counter (remove_order_with_id_from_stack order_id).
Proof.
  intros st. unfold remove_order_with_id_from_stack. cbn [log_call _stack].
  destruct (_stack st !! order_id) as [old|] eqn:Hold; keeps_by_cases.
Qed.

Lemma keeps_rollback_loop (ids : list Z) : keeps_counter (rollback_loop ids).
Proof.
  induction ids as [|i rest IH]; [apply keeps_ret|].
  cbn [rollback_loop].
  apply keeps_bind; [apply keeps_unlock | intros _].
  apply keeps_bind; [apply keeps_deactivate | intros _].
  apply keeps_bind; [apply keeps_remove | intros _]. exact IH.
Qed.

Lemma keeps_unlock_loop (ids : list Z) : keeps_counter (unlock_loop ids).
Proof.
  induction ids as [|i rest IH]; [apply keeps_ret|].
  cbn [unlock_loop]. apply keeps_bind; [apply keeps_unlock | intros _].
  exact IH.
Qed.

Lemma keeps_put_loop (orders : list contractOrder) :
  forall acc, keeps_counter (put_loop orders acc).
Proof.
  induction orders as [|o rest IH]; intros acc; [apply keeps_ret|].
  cbn [put_loop]. apply keeps_bind; [apply keeps_put | intros [i|e]].
  - apply IH.
  - apply keeps_ret.
Qed.

Lemma keeps_rollback_list (ids : list Z) :
  keeps_counter (rollback_list_of_orders_on_stack ids).
Proof.
  apply keeps_bind; [apply keeps_rollback_loop | intros _; apply keeps_ret].
Qed.

Lemma keeps_unlock_list (ids : list Z) :
  keeps_counter (unlock_list_of_orders ids).
Proof.
  apply keeps_bind; [apply keeps_unlock_loop | intros _; apply keeps_ret].
Qed.

Lemma keeps_put_list (orders : list contractOrder) (unlock : bool) :
  keeps_counter (put_list_of_orders_on_stack orders unlock).
Proof.
  unfold put_list_of_orders_on_stack.
  destruct (Nat.eqb (length orders) 0); [apply keeps_ret|].
  apply keeps_bind; [apply keeps_put_loop | intros [ids status]].
  cbn [fst snd].
  destruct status;
    try (apply keeps_bind;
         [destruct unlock; [apply keeps_unlock_list | apply keeps_ret]
         | intros _; apply keeps_ret]).
  apply keeps_bind; [apply keeps_rollback_list | intros _; apply keeps_ret].
Qed.

Lemma keeps_release (order_id : Z) :
  keeps_counter (release_order_from_algo_control order_id).
Proof.
  apply keeps_bind; [apply keeps_get | intros [o|]]; [|apply keeps_raise].
  destruct (negb (ContractOrder.is_order_controlled_by_algo o));
    [apply keeps_ret|].
  cbn [ContractOrder.release_order_from_algo_control].
  apply keeps_bind; [apply keeps_change | intros r].
  destruct r; (apply keeps_ret || apply keeps_raise).
Qed.

Lemma keeps_add (order_id : Z) (ref : option string) :
  keeps_counter (add_controlling_algo_ref order_id ref).
Proof.
  destruct ref as [r|]; [|apply keeps_release].
  cbn [add_controlling_algo_ref].
  apply keeps_bind; [apply keeps_get | intros [o|]]; [|apply keeps_raise].
  destruct (ContractOrder.add_controlling_algo_ref (Some r) (copy o))
    as [[x|e] o']; [|apply keeps_raise].
  apply keeps_bind; [apply keeps_change | intros res].
  destruct res; (apply keeps_ret || apply keeps_raise).
Qed.

Lemma keeps_run_call (c : method_call) (st : StackState) :
  (stack_wf st -> stack_wf (run_call c st))
  /\ next_order_id st <= next_order_id (run_call c st).
Proof.
  destruct c; cbn [run_call].
  - apply keeps_put_list.
  - apply keeps_rollback_list.
  - apply keeps_unlock_list.
  - apply keeps_add.
  - apply keeps_release.
Qed.

End KeepsCounter.

(** X23: over any sequence of calls of [put_list_of_orders_on_stack],
    [rollback_list_of_orders_on_stack], [unlock_list_of_orders],
    [add_controlling_algo_ref] and [release_order_from_algo_control], failed
    and raising calls included, a stack whose ids lie below the id counter
    stays so and the counter never goes back: no id is handed out twice, not
    even after a rollback. *)
Theorem method_calls_keep_counter (cs : list ContractOrderStack.method_call)
    (st : StackState) :
  ContractOrderStack.stack_wf st ->
  ContractOrderStack.stack_wf (ContractOrderStack.run_calls cs st)
  /\ next_order_id st <= next_order_id (ContractOrderStack.run_calls cs st).
Proof.
  revert st. induction cs as [|c cs IH]; intros st Hwf.
  - simpl. split; [exact Hwf | lia].
  - cbn [ContractOrderStack.run_calls fold_left].
    destruct (keeps_run_call c st) as [Hwf1 Hle1].
    destruct (IH (ContractOrderStack.run_call c st) (Hwf1 Hwf)) as [Hwf2 Hle2].
    unfold ContractOrderStack.run_calls in *. split; [exact Hwf2 | lia].
Qed.

Lemma method_calls_keep_counter_witness :
  let st := Fixtures.stack_with Fixtures.bund_uncontrolled in
  let cs :=
    [ContractOrderStack.PutList Fixtures.batch_with_duplicate true;
     ContractOrderStack.AddControllingAlgoRef 1 (Some "algoA");
     ContractOrderStack.PutList [Fixtures.edollar_spread] false;
     ContractOrderStack.RollbackList [4]] in
  ContractOrderStack.stack_wf (ContractOrderStack.run_calls cs st)
  /\ next_order_id st <= next_order_id (ContractOrderStack.run_calls cs st).
Proof.
  apply (method_calls_keep_counter
           [ContractOrderStack.PutList Fixtures.batch_with_duplicate true;
            ContractOrderStack.AddControllingAlgoRef 1 (Some "algoA");
            ContractOrderStack.PutList [Fixtures.edollar_spread] false;
            ContractOrderStack.RollbackList [4]]
           (Fixtures.stack_with Fixtures.bund_uncontrolled)).
  apply stack_with_wf.
Defined.

(** ** Duplicates inside a batch *)

Lemma duplicate_on_stack_found (m : gmap Z contractOrder) (i : Z)
    (existing new_order : contractOrder) :
  m !! i = Some existing ->
  ContractOrderStack.is_duplicate_of new_order existing = true ->
  ContractOrderStack.duplicate_on_stack m new_order = true.
Proof.
  intros Hi Hdup. unfold ContractOrderStack.duplicate_on_stack.
  apply existsb_exists. exists (i, existing). split; [|exact Hdup].
  apply list_elem_of_In, elem_of_map_to_list. exact Hi.
Qed.

Lemma put_loop_stops_at_duplicate (rest : list contractOrder) :
  forall (acc : list Z) (st : StackState) (i : Z) (existing b : contractOrder),
    _stack st !! i = Some existing ->
    i < next_order_id st ->
    b ∈ rest ->
    ContractOrderStack.is_duplicate_of (snd (ContractOrder.lock_order b))
      existing = true ->
    exists ids st',
      ContractOrderStack.put_loop rest acc st = (Ok (ids, failure), st').
Proof.
  induction rest as [|o rest IH]; intros acc st i existing b Hi Hlt Hb Hdup.
  - now apply elem_of_nil in Hb.
  - cbn [ContractOrderStack.put_loop]. unfold ContractOrderStack.bind.
    destruct (put_order_cases (snd (ContractOrder.lock_order o)) st)
      as [[e He] | Hput].
    + rewrite He. eauto.
    + apply elem_of_cons in Hb as [-> | Hb].
      * exfalso. unfold ContractOrderStack.put_order_on_stack in Hput.
        rewrite (duplicate_on_stack_found _ i existing _ Hi Hdup) in Hput.
        discriminate.
      * rewrite Hput.
        eapply (IH _ _ i existing b); cbn [_stack next_order_id];
          [ rewrite lookup_insert_ne by lia; exact Hi | lia | exact Hb
          | exact Hdup ].
Qed.

Lemma put_loop_fails_on_repeated_order (pre : list contractOrder) :
  forall (acc : list Z) (st : StackState) (a b : contractOrder)
         (mid post : list contractOrder),
    _active a = true ->
    ContractOrder.order_key a = ContractOrder.order_key b ->
    ContractOrder.same_trade_size a b = true ->
    exists ids st',
      ContractOrderStack.put_loop (pre ++ a :: mid ++ b :: post) acc st
      = (Ok (ids, failure), st').
Proof.
  induction pre as [|o pre IH]; intros acc st a b mid post Hact Hkey Hsize.
  - cbn [app ContractOrderStack.put_loop]. unfold ContractOrderStack.bind.
    destruct (put_order_cases (snd (ContractOrder.lock_order a)) st)
      as [[e He] | Hput].
    + rewrite He. eauto.
    + rewrite Hput.
      eapply (put_loop_stops_at_duplicate _ _ _ (next_order_id st) _ b).
      * cbn [_stack]. apply lookup_insert_eq.
      * cbn [next_order_id]. lia.
      * apply elem_of_app. right. apply list_elem_of_here.
      * unfold ContractOrderStack.is_duplicate_of. cbn.
        unfold ContractOrder.order_key in Hkey. cbn in Hkey.
        unfold ContractOrder.same_trade_size, ContractOrder.trade in Hsize.
        rewrite Hact, Hkey, String.eqb_refl. exact Hsize.
  - cbn [app ContractOrderStack.put_loop]. unfold ContractOrderStack.bind.
    destruct (put_order_cases (snd (ContractOrder.lock_order o)) st)
      as [[e He] | Hput].
    + rewrite He. eauto.
    + rewrite Hput. now apply IH.
Qed.

(** X24: a batch that holds the same order twice, that is two orders with
    the same key and matching trade vectors of which the earlier one is
    active, is never put: [put_list_of_orders_on_stack] returns [failure],
    whatever else the batch and the stack hold. *)
Theorem put_list_refuses_repeated_order (pre mid post : list contractOrder)
    (a b : contractOrder) (unlock_when_finished : bool) (st : StackState) :
  _active a = true ->
  ContractOrder.order_key a = ContractOrder.order_key b ->
  ContractOrder.same_trade_size a b = true ->
  fst (ContractOrderStack.put_list_of_orders_on_stack
         (pre ++ a :: mid ++ b :: post) unlock_when_finished st)
  = Ok (inr failure).
Proof.
  intros Hact Hkey Hsize.
  destruct (put_loop_fails_on_repeated_order pre [] st a b mid post
              Hact Hkey Hsize) as (ids & st1 & Hloop).
  unfold ContractOrderStack.put_list_of_orders_on_stack.
  replace (Nat.eqb (length (pre ++ a :: mid ++ b :: post)) 0) with false
    by (destruct pre; reflexivity).
  unfold ContractOrderStack.bind at 1. rewrite Hloop. cbn [fst snd].
  unfold ContractOrderStack.rollback_list_of_orders_on_stack,
         ContractOrderStack.bind.
  destruct (rollback_loop_run ids st1) as (st2 & Hrb & _).
  now rewrite Hrb.
Qed.

Lemma put_list_refuses_repeated_order_witness :
  fst (ContractOrderStack.put_list_of_orders_on_stack
         ([] ++ Fixtures.edollar_march
             :: [Fixtures.edollar_june] ++ Fixtures.edollar_march
             :: [Fixtures.edollar_spread])
         true (Fixtures.stack_with Fixtures.bund_controlled))
  = Ok (inr failure).
Proof.
  apply (put_list_refuses_repeated_order [] [Fixtures.edollar_june]
           [Fixtures.edollar_spread] Fixtures.edollar_march
           Fixtures.edollar_march true
           (Fixtures.stack_with Fixtures.bund_controlled)).
  - reflexivity.
  - reflexivity.
  - reflexivity.
Defined.

(** ** Manual fills *)

(** X25: when the fill primitive returns [failure], or raises,
    [manual_fill_for_order_id] ends there with the same outcome: it neither
    reads the order nor writes the manual-fill flag. *)
Theorem manual_fill_stops_on_failure
    (change_fill_quantity_for_order :
       Z -> list Z -> option Q -> option Z
       -> ContractOrderStack.StackM named_object)
    (write_back_missing : Z -> ContractOrderStack.StackM named_object)
    (order_id : Z) (fill_qty : list Z) (filled_price : option Q)
    (fill_datetime : option Z) (st : StackState) :
  let filled :=
    change_fill_quantity_for_order order_id fill_qty filled_price
      fill_datetime st in
  (fst filled = Ok failure \/ exists e, fst filled = Raise e) ->
  ContractOrderStack.manual_fill_for_order_id change_fill_quantity_for_order
    write_back_missing order_id fill_qty filled_price fill_datetime st
  = filled.
Proof.
  intros filled H. subst filled.
  unfold ContractOrderStack.manual_fill_for_order_id,
         ContractOrderStack.bind at 1.
  destruct (change_fill_quantity_for_order order_id fill_qty filled_price
              fill_datetime st) as [r st1].
  cbn [fst] in H. destruct H as [-> | [e ->]]; reflexivity.
Qed.

Lemma manual_fill_stops_on_failure_witness :
  ContractOrderStack.manual_fill_for_order_id
    (fun _ _ _ _ => ContractOrderStack.ret failure)
    (fun _ => ContractOrderStack.ret missing_order)
    1 [5] None None (Fixtures.stack_with Fixtures.bund_controlled)
  = (Ok failure, Fixtures.stack_with Fixtures.bund_controlled).
Proof.
  apply (manual_fill_stops_on_failure
           (fun _ _ _ _ => ContractOrderStack.ret failure)
           (fun _ => ContractOrderStack.ret missing_order)
           1 [5] None None (Fixtures.stack_with Fixtures.bund_controlled)).
  left. reflexivity.
Defined.

(** X26: when the fill primitive returns anything but [failure] and the
    order is on the stack afterwards, [manual_fill_for_order_id] reads the
    order, sets its manual-fill flag and writes it back with the
    modification check off: the result is success whatever the lock and the
    modification status, and trade, fill and controlling algo are as the
    primitive left them. *)
Theorem manual_fill_marks_order
    (change_fill_quantity_for_order :
       Z -> list Z -> option Q -> option Z
       -> ContractOrderStack.StackM named_object)
    (write_back_missing : Z -> ContractOrderStack.StackM named_object)
    (order_id : Z) (fill_qty : list Z) (filled_price : option Q)
    (fill_datetime : option Z) (st st1 : StackState) (result : named_object)
    (o : contractOrder) :
  change_fill_quantity_for_order order_id fill_qty filled_price
    fill_datetime st = (Ok result, st1) ->
  result <> failure ->
  _stack st1 !! order_id = Some o ->
  exists st2 o',
    ContractOrderStack.manual_fill_for_order_id change_fill_quantity_for_order
      write_back_missing order_id fill_qty filled_price fill_datetime st
    = (Ok success, st2)
    /\ o' = snd (ContractOrder.set_manual_fill true o)
    /\ _stack st2 = <[order_id := o']> (_stack st1)
    /\ manual_fill (_order_info o') = true
    /\ ContractOrder.trade o' = ContractOrder.trade o
    /\ ContractOrder.fill o' = ContractOrder.fill o
    /\ ContractOrder.get_reference_of_controlling_algo o'
       = ContractOrder.get_reference_of_controlling_algo o
    /\ calls st2
       = (calls st1 ++ [CallGet order_id; CallChange order_id o'])%list.
Proof.
  intros Hprim Hres Hget. eexists _, _. split.
  - unfold ContractOrderStack.manual_fill_for_order_id,
           ContractOrderStack.bind at 1.
    rewrite Hprim.
    assert (Hgo : forall k : ContractOrderStack.StackM named_object,
              match result with
              | failure => ContractOrderStack.ret failure
              | _ => k
              end = k).
    { intros k. destruct result; try reflexivity. contradiction. }
    rewrite Hgo. unfold ContractOrderStack.bind at 1.
    rewrite get_order_run, Hget. unfold ContractOrderStack.bind.
    rewrite (change_run_unchecked _ order_id o) by exact Hget.
    reflexivity.
  - cbn [_stack calls ContractOrderStack.log_call]. repeat split.
    now rewrite <- app_assoc.
Qed.

Lemma manual_fill_marks_order_witness :
  let st := Fixtures.stack_with Fixtures.bund_controlled in
  exists st2 o',
    ContractOrderStack.manual_fill_for_order_id
      (fun _ _ _ _ => ContractOrderStack.ret success)
      (fun _ => ContractOrderStack.ret missing_order)
      1 [1] None None st
    = (Ok success, st2)
    /\ o' = snd (ContractOrder.set_manual_fill true Fixtures.bund_controlled)
    /\ _stack st2 = <[1 := o']> (_stack st)
    /\ manual_fill (_order_info o') = true
    /\ ContractOrder.trade o' = ContractOrder.trade Fixtures.bund_controlled
    /\ ContractOrder.fill o' = ContractOrder.fill Fixtures.bund_controlled
    /\ ContractOrder.get_reference_of_controlling_algo o'
       = ContractOrder.get_reference_of_controlling_algo
           Fixtures.bund_controlled
    /\ calls st2 = (calls st ++ [CallGet 1; CallChange 1 o'])%list.
Proof.
  apply (manual_fill_marks_order
           (fun _ _ _ _ => ContractOrderStack.ret success)
           (fun _ => ContractOrderStack.ret missing_order)
           1 [1] None None (Fixtures.stack_with Fixtures.bund_controlled)
           (Fixtures.stack_with Fixtures.bund_controlled) success
           Fixtures.bund_controlled).
  - reflexivity.
  - discriminate.
  - reflexivity.
Defined.
